(** * vscode-deepseek: a shallow embedding of [src/extension.ts]

    The extension registers a chat participant that relays a conversation
    to a local Ollama server.  Every function of the source file that takes
    part in a turn is embedded here as a Rocq function of the same name:

    - values of JavaScript are modelled by the data the code inspects
      (strings, optional fields, IEEE-754 doubles);
    - every side effect (host chat stream, process console, telemetry
      logger, calls to the Ollama client) is recorded, in program order, in
      one trace;
    - [throw] / [try ... catch] is an exception monad over that trace;
    - the answers of the outside world (configuration store, Ollama server)
      are read from a [World] record, so that every theorem quantifies over
      all possible answers. *)

From Stdlib Require Import String Ascii List Bool ZArith Lia.
From Stdlib Require Import Floats.SpecFloat.
Import ListNotations.

Local Open Scope string_scope.
Local Open Scope list_scope.

(* ================================================================== *)
(** * JavaScript primitives used by the source                         *)
(* ================================================================== *)

Module JS.

(** The line feed written [\n] in the source's string literals. *)
Definition nl : string := String (ascii_of_nat 10) EmptyString.

(** [s.startsWith(p)]. *)
Definition startsWith (s p : string) : bool := String.prefix p s.

(** Truthiness of a string: every string but the empty one. *)
Definition truthy_string (s : string) : bool :=
  match s with
  | EmptyString => false
  | String _ _ => true
  end.

(** Truthiness of a possibly [undefined] string. *)
Definition truthy_ostring (o : option string) : bool :=
  match o with
  | Some s => truthy_string s
  | None => false
  end.

(** [a ?? b] on a possibly [undefined] value. *)
Definition nullish {A : Type} (a : option A) (b : A) : A :=
  match a with
  | Some x => x
  | None => b
  end.

(** [a === "literal"] where [a] may be [undefined]. *)
Definition strict_eq (a : option string) (lit : string) : bool :=
  match a with
  | Some s => String.eqb s lit
  | None => false
  end.

(** ** Numbers

    A JavaScript number is an IEEE-754 binary64 value; the operations
    are the ones of the standard library's executable specification. *)

Definition number : Type := spec_float.

Definition prec : Z := 53.
Definition emax : Z := 1024.

(** The number denoted by an integer literal. *)
Definition of_Z (z : Z) : number := binary_normalize prec emax z 0 false.

Definition div (x y : number) : number := SFdiv prec emax x y.
Definition mul (x y : number) : number := SFmul prec emax x y.

(** [x === y] on numbers: [NaN] differs from everything, the two zeros
    are equal. *)
Definition num_eq (x y : number) : bool := SFeqb x y.

(** Truthiness of a number: everything but [+0], [-0] and [NaN]. *)
Definition truthy_number (x : number) : bool :=
  match x with
  | S754_zero _ | S754_nan => false
  | S754_infinity _ | S754_finite _ _ _ => true
  end.


(** [Math.round(x)]: [x] itself when it is not finite or already
    integral; otherwise the integer closest to [x], the one towards
    [+Infinity] on a tie; a zero result keeps the sign of [x]. *)
Definition Math_round (x : number) : number :=
  match x with
  | S754_finite s m e =>
      if (0 <=? e)%Z then x
      else
        let twice := (if s then Z.opp (Zpos m~0) else Zpos m~0) in
        let n := Z.shiftr (twice + Z.shiftl 1 (- e)) (1 - e) in
        binary_normalize prec emax n 0 s
  | _ => x
  end.

End JS.

(* ================================================================== *)
(** * Data model                                                       *)
(* ================================================================== *)

(** ** Constants of the source file *)

Definition AGENT_PARTICIPANT_ID : string := "dev.wassim.agents.deepseek".
Definition BASE_PROMPT : string := "You are a helpful assistant.".
Definition OLLAMA_HOST : string := "http://localhost:11434".
Definition MODEL : string := "deepseek-coder:1.3b".
Definition HIDDEN_ERROR_MESSAGE_PLACEHOLDER : string := "&nbsp;".

(** ** Values exchanged with the Ollama client *)

(** [Message] of the client library: a role and a text. *)
Record Message : Type := mkMessage { role : string; content : string }.

(** One chunk of a streamed chat completion; the handler reads
    [fragment.message.content] only. *)
Record ChatResponse : Type := mkChatResponse { message : Message }.

(** One entry of [ollama.list()]'s [models]; the code reads [name] only. *)
Record ModelResponse : Type := mkModelResponse { name : string }.

(** One event of a streamed pull.  At run time [digest], [completed] and
    [total] may be missing, hence the options. *)
Record ProgressResponse : Type := mkProgressResponse {
  status : string;
  digest : option string;
  completed : option JS.number;
  total : option JS.number
}.

(** ** Thrown values

    Every value thrown during a turn comes from the client library or the
    host and is an [Error] object: it has a [message], may carry a [code]
    and may carry a [cause] that itself may carry a [code]. *)

Record ErrorCause : Type := mkCause { cause_code : option string }.

Record Error : Type := mkError {
  code : option string;
  cause : option ErrorCause;
  err_message : string
}.

(** [err.cause?.code] *)
Definition cause_code_of (err : Error) : option string :=
  match cause err with
  | Some c => cause_code c
  | None => None
  end.

(** ** Values exchanged with the host *)

(** A part of a previous response; [value] stands for the text
    [mdPart.value.value] the adapter reads. *)
Record ChatResponseMarkdownPart : Type := mkPart { value : string }.

(** An entry of [context.history].  [OtherTurn] stands for any object
    that is an instance of neither class. *)
Inductive Turn : Type :=
| ChatRequestTurn (prompt : string)
| ChatResponseTurn (response : list ChatResponseMarkdownPart)
| OtherTurn.

Record ChatContext : Type := mkContext { history : list Turn }.

Record ChatRequest : Type := mkRequest { prompt : string }.

Record Metadata : Type := mkMetadata { command : string }.

Record IAgentChatResult : Type := mkResult { metadata : Metadata }.

(** A tool registered with the host, and the descriptor [getTools] builds
    from it. *)
Record LanguageModelToolInformation : Type := mkTool {
  tool_name : string;
  tool_description : string;
  tool_inputSchema : string
}.

Record ToolFunction : Type := mkToolFunction {
  fn_name : string;
  fn_description : string;
  fn_parameters : string
}.

Record ToolDescriptor : Type := mkToolDescriptor {
  td_type : string;
  td_function : ToolFunction
}.

(** ** Asynchronous iterators

    What a streaming endpoint of the server delivers: finitely many items,
    then either the end of the stream or a thrown error. *)
Inductive AsyncIter (A : Type) : Type :=
| Next (item : A) (rest : AsyncIter A)
| Finished
| Failed (err : Error).

Arguments Next {A} item rest.
Arguments Finished {A}.
Arguments Failed {A} err.

(** The items delivered before the stream ends or fails. *)
Fixpoint items {A : Type} (it : AsyncIter A) : list A :=
  match it with
  | Next a rest => a :: items rest
  | Finished | Failed _ => []
  end.

(** A stream that delivers [l] and then continues as [tail]. *)
Fixpoint deliver {A : Type} (l : list A) (tail : AsyncIter A) : AsyncIter A :=
  match l with
  | [] => tail
  | a :: l' => Next a (deliver l' tail)
  end.

(** ** The outside world *)

Record World : Type := mkWorld {
  (** [workbenchConfig.get("model.name")] and [get("ollama.host")] *)
  config_model_name : option string;
  config_ollama_host : option string;
  (** [vscode.lm.tools] *)
  lm_tools : list LanguageModelToolInformation;
  (** [new Ollama({ host })]: [Some err] when the constructor throws *)
  ollama_new : string -> option Error;
  (** [ollama.ps()] *)
  ollama_ps : option Error;
  (** [ollama.list()] *)
  ollama_list : Error + list ModelResponse;
  (** [ollama.pull({ model, stream: true })] *)
  ollama_pull : string -> Error + AsyncIter ProgressResponse;
  (** [ollama.chat({ model, messages, stream: true })] *)
  ollama_chat : string -> list Message -> Error + AsyncIter ChatResponse
}.

(* ================================================================== *)
(** * Effects                                                          *)
(* ================================================================== *)

(** A call to the Ollama client. *)
Inductive ApiCall : Type :=
| ApiNew (host : string)
| ApiPs
| ApiList
| ApiPull (model : string)
| ApiChat (model : string) (messages : list Message).

(** An object handed to [console.log] in braces. *)
Inductive Logged : Type :=
| LogErr (err : Error)
| LogMessages (messages : list Message)
| LogTools (tools : list ToolDescriptor).

Inductive Effect : Type :=
(** [stream.progress(s)] and [stream.markdown(s)] on the host's stream *)
| StreamProgress (s : string)
| StreamMarkdown (s : string)
(** [process.stdout.write(`${status} ${percent}%...`)] *)
| StdoutWrite (status : string) (percent : JS.number)
(** [console.log(s)], [console.log()], [console.log({ ... })] *)
| ConsoleLog (s : string)
| ConsoleLogBlank
| ConsoleLogObj (o : Logged)
(** [console.error(s)] *)
| ConsoleError (s : string)
(** [logger.logError(err)] *)
| TelemetryLogError (err : Error)
(** a call to the Ollama client *)
| Ollama (c : ApiCall).

Definition Trace : Type := list Effect.

(** ** The monad of the embedding: a trace and a result or a thrown error *)

Inductive Outcome (A : Type) : Type :=
| Returned (a : A)
| Threw (err : Error).

Arguments Returned {A} a.
Arguments Threw {A} err.

Definition M (A : Type) : Type := Trace * Outcome A.

Definition ret {A : Type} (a : A) : M A := ([], Returned a).

Definition throw {A : Type} (err : Error) : M A := ([], Threw err).

Definition bind {A B : Type} (m : M A) (k : A -> M B) : M B :=
  match m with
  | (t, Returned a) => let (t', r) := k a in (t ++ t', r)
  | (t, Threw err) => (t, Threw err)
  end.

(** [try { m } catch (err) { handler err }] *)
Definition try_catch {A : Type} (m : M A) (handler : Error -> M A) : M A :=
  match m with
  | (t, Returned a) => (t, Returned a)
  | (t, Threw err) => let (t', r) := handler err in (t ++ t', r)
  end.

(** Perform one effect. *)
Definition emit (e : Effect) : M unit := ([e], Returned tt).

(** [await] of a call that resolves to nothing or rejects. *)
Definition await_unit (r : option Error) : M unit :=
  match r with
  | None => ret tt
  | Some err => throw err
  end.

(** [await] of a call that resolves to a value or rejects. *)
Definition await {A : Type} (r : Error + A) : M A :=
  match r with
  | inr a => ret a
  | inl err => throw err
  end.

Definition trace_of {A : Type} (m : M A) : Trace := fst m.
Definition outcome_of {A : Type} (m : M A) : Outcome A := snd m.

Declare Scope js_scope.
Delimit Scope js_scope with js.

Notation "x <- m ;; k" := (bind m (fun x => k))
  (at level 61, m at next level, right associativity) : js_scope.
Notation "m ;; k" := (bind m (fun _ => k))
  (at level 61, right associativity) : js_scope.

Local Open Scope js_scope.

(** [for await (const part of it) { s = body part s }] with the loop's
    mutable variables in [s]. *)
Fixpoint for_await {A S : Type} (it : AsyncIter A) (body : A -> S -> M S)
  (s : S) : M S :=
  match it with
  | Next a rest => s' <- body a s ;; for_await rest body s'
  | Finished => ret s
  | Failed err => throw err
  end.

(** ** Asynchronous generators

    What an [async function*] of the program produces: its own effects
    interleaved with the values it yields.  [before] holds the effects the
    generator performs between being resumed and its next [yield],
    [return] or [throw]. *)
Inductive Gen (A : Type) : Type :=
| GenYield (before : Trace) (a : A) (rest : Gen A)
| GenReturn (before : Trace)
| GenThrow (before : Trace) (err : Error).

Arguments GenYield {A} before a rest.
Arguments GenReturn {A} before.
Arguments GenThrow {A} before err.

(** Effects performed by the generator's body before its first step. *)
Definition gen_after {A : Type} (t : Trace) (g : Gen A) : Gen A :=
  match g with
  | GenYield before a rest => GenYield (t ++ before) a rest
  | GenReturn before => GenReturn (t ++ before)
  | GenThrow before err => GenThrow (t ++ before) err
  end.

(** [for await (const x of g) { body x }] over a generator: the consumer's
    body runs between two steps of the generator. *)
Fixpoint for_await_gen {A : Type} (g : Gen A) (body : A -> M unit) : M unit :=
  match g with
  | GenYield before a rest =>
      (before, Returned tt) ;; body a ;; for_await_gen rest body
  | GenReturn before => (before, Returned tt)
  | GenThrow before err => (before, Threw err)
  end.

(* ================================================================== *)
(** * The program                                                      *)
(* ================================================================== *)

(** [vscode.l10n.t(message)]: the extension ships no localisation bundle,
    so the host hands the message back unchanged. *)
Definition l10n_t (message : string) : string := message.

Definition readModelFromConfig (w : World) : string :=
  JS.nullish (config_model_name w) MODEL.

Definition readOllamaHostFromConfig (w : World) : string :=
  JS.nullish (config_ollama_host w) OLLAMA_HOST.

Definition getTools (w : World) : M (list ToolDescriptor) :=
  ret (map (fun tool =>
              {| td_type := "function";
                 td_function := {| fn_name := tool_name tool;
                                   fn_description := tool_description tool;
                                   fn_parameters := tool_inputSchema tool |} |})
           (lm_tools w)).

Definition assertOllamaRunning (w : World) : M unit :=
  emit (Ollama ApiPs) ;;
  await_unit (ollama_ps w).

(** ** pullModel *)

(** The [percent] of one pull event (lines 54-57). *)
Definition percent_of (part : ProgressResponse) : JS.number :=
  match completed part, total part with
  | Some c, Some t =>
      if JS.truthy_number c && JS.truthy_number t
      then JS.Math_round (JS.mul (JS.div c t) (JS.of_Z 100))
      else JS.of_Z 0
  | _, _ => JS.of_Z 0
  end.

(** The body of the [for await] loop of [pullModel]; the loop variable
    [currentDigestDone] is passed in and handed back. *)
Definition pullModel_body (part : ProgressResponse) (currentDigestDone : bool)
  : M bool :=
  if JS.truthy_ostring (digest part) then
    let percent := percent_of part in
    emit (StdoutWrite (status part) percent) ;;
    if JS.num_eq percent (JS.of_Z 100) && negb currentDigestDone then
      emit ConsoleLogBlank ;;
      ret true
    else
      ret false
  else
    emit (StreamProgress (status part ++ "..." ++ JS.nl)) ;;
    emit (ConsoleLog (status part)) ;;
    ret currentDigestDone.

Definition pullModel (w : World) (model : string) : M unit :=
  emit (ConsoleLog ("Pulling latest model " ++ model ++ "'s manifest...")) ;;
  emit (Ollama (ApiPull model)) ;;
  response <- await (ollama_pull w model) ;;
  for_await response pullModel_body false ;;
  emit (StreamProgress ("Download complete!" ++ JS.nl)) ;;
  emit (ConsoleLog "Download complete!").

(** ** assertPullModel *)

(** [models.map((m) => m.name).filter((m) => m.startsWith(model))] *)
Definition matching_names (models : list ModelResponse) (model : string)
  : list string :=
  filter (fun m => JS.startsWith m model) (map name models).

Definition assertPullModel (w : World) (model : string) : M unit :=
  emit (Ollama ApiList) ;;
  models <- await (ollama_list w) ;;
  if Nat.eqb (length (matching_names models model)) 0 then
    emit (StreamProgress ("Model " ++ model ++ " not found." ++ JS.nl)) ;;
    emit (StreamProgress ("Installing model." ++ JS.nl)) ;;
    emit (StreamProgress ("This might take a few minutes." ++ JS.nl)) ;;
    pullModel w model
  else
    ret tt.

(** ** appendAssistantHistory *)

(** The callback of the inner [forEach]: [fullMessage] after part [r]. *)
Definition append_part (fullMessage : string) (r : ChatResponseMarkdownPart)
  : string :=
  if negb (JS.startsWith (value r) HIDDEN_ERROR_MESSAGE_PLACEHOLDER)
  then fullMessage ++ value r
  else fullMessage.

(** The callback of the outer [forEach]: [messages] after turn [m]. *)
Definition append_turn (messages : list Message) (m : Turn) : list Message :=
  match m with
  | ChatResponseTurn response =>
      let fullMessage := fold_left append_part response EmptyString in
      if JS.truthy_string fullMessage
      then messages ++ [{| role := "assistant"; content := fullMessage |}]
      else messages
  | ChatRequestTurn prompt =>
      messages ++ [{| role := "user"; content := prompt |}]
  | OtherTurn => messages
  end.

Definition appendAssistantHistory (context : ChatContext) : list Message :=
  fold_left append_turn (history context) [].

(** ** streamResponse *)

(** The [for await ... yield chunk] loop inside the generator's [try]:
    an error of the underlying stream is caught, its message goes to
    [console.error], and the generator ends normally. *)
Fixpoint relay (response : AsyncIter ChatResponse) : Gen ChatResponse :=
  match response with
  | Next chunk rest => GenYield [] chunk (relay rest)
  | Finished => GenReturn []
  | Failed err => GenReturn [ConsoleError (err_message err)]
  end.

Definition streamResponse (w : World) (model : string)
  (messages : list Message) (tools : list ToolDescriptor) : Gen ChatResponse :=
  let before :=
    [ ConsoleLog ("Using model: " ++ model);
      ConsoleLog (readOllamaHostFromConfig w ++ "/api/chat");
      ConsoleLogObj (LogMessages messages);
      ConsoleLogObj (LogTools tools);
      Ollama (ApiChat model messages) ] in
  match ollama_chat w model messages with
  | inr response => gen_after before (relay response)
  | inl err => GenReturn (before ++ [ConsoleError (err_message err)])
  end.

(** ** handleError *)

(** [a || b] on possibly [undefined] strings. *)
Definition or_else (a b : option string) : option string :=
  if JS.truthy_ostring a then a else b.

(** [(err.code || err.cause?.code) || 'UNKNOWN'], as the template prints
    it. *)
Definition shown_code (err : Error) : string :=
  match or_else (code err) (cause_code_of err) with
  | Some s => if JS.truthy_string s then s else "UNKNOWN"
  | None => "UNKNOWN"
  end.

(** The condition of line 137. *)
Definition is_connectivity_error (err : Error) : bool :=
  JS.strict_eq (code err) "ERR_INVALID_URL"
  || JS.strict_eq (cause_code_of err) "ECONNREFUSED".

(** The text of lines 143-149. *)
Definition connectivity_message (host : string) (err : Error) : string :=
  HIDDEN_ERROR_MESSAGE_PLACEHOLDER ++
  "I'm sorry, I cannot connect to the Ollama server." ++ JS.nl ++ JS.nl ++
  "Please check the following:" ++ JS.nl ++ JS.nl ++
  "- The Ollama app is installed and running. Visit [ollama.com](https://ollama.com) for more details." ++ JS.nl ++
  "- The Ollama server is running at [" ++ host ++ "](" ++ host ++ ")" ++ JS.nl ++
  "- The Ollama server URL is correct in your [settings.json](https://code.visualstudio.com/docs/getstarted/settings): `deepseek.ollama.host` " ++ JS.nl ++
  "- The Ollama server is accessible from this network." ++ JS.nl ++ JS.nl ++
  "Here is the error message: `" ++ err_message err ++
  " (code: " ++ shown_code err ++ ")`".

(** The text of line 156. *)
Definition generic_message : string :=
  "I'm sorry, I can't help with that. Can I help with something else?".

Definition handleError (w : World) (err : Error) : M unit :=
  emit (TelemetryLogError err) ;;
  emit (ConsoleLogObj (LogErr err)) ;;
  if is_connectivity_error err then
    let host := readOllamaHostFromConfig w in
    emit (StreamMarkdown (l10n_t (connectivity_message host err)))
  else
    emit (StreamMarkdown (l10n_t generic_message)).

(** ** agentHandler *)

(** The array literal of lines 101-111. *)
Definition build_messages (request : ChatRequest) (context : ChatContext)
  : list Message :=
  [{| role := "user"; content := BASE_PROMPT |}]
  ++ appendAssistantHistory context
  ++ [{| role := "user"; content := prompt request |}].

(** The body of the [try] block. *)
Definition agentHandler_try (w : World) (request : ChatRequest)
  (context : ChatContext) : M unit :=
  tools <- getTools w ;;
  let model := readModelFromConfig w in
  let host := readOllamaHostFromConfig w in
  emit (Ollama (ApiNew host)) ;;
  await_unit (ollama_new w host) ;;
  assertOllamaRunning w ;;
  assertPullModel w model ;;
  let messages := build_messages request context in
  let chatResponse := streamResponse w model messages tools in
  for_await_gen chatResponse
    (fun fragment => emit (StreamMarkdown (content (message fragment)))).

Definition agentHandler (w : World) (request : ChatRequest)
  (context : ChatContext) : M IAgentChatResult :=
  try_catch (agentHandler_try w request context)
            (fun err => handleError w err) ;;
  ret {| metadata := {| command := EmptyString |} |}.

(* ================================================================== *)
(** * Observations on traces                                           *)
(* ================================================================== *)

(** What the host's chat stream received, in order. *)
Definition on_host (e : Effect) : list Effect :=
  match e with
  | StreamProgress _ | StreamMarkdown _ => [e]
  | _ => []
  end.

Definition host_stream (t : Trace) : Trace := flat_map on_host t.

(** The texts handed to [stream.markdown], in order. *)
Definition on_markdown (e : Effect) : list string :=
  match e with
  | StreamMarkdown s => [s]
  | _ => []
  end.

Definition markdowns (t : Trace) : list string := flat_map on_markdown t.

(** The errors handed to the telemetry logger, in order. *)
Definition on_telemetry (e : Effect) : list Error :=
  match e with
  | TelemetryLogError err => [err]
  | _ => []
  end.

Definition telemetry (t : Trace) : list Error := flat_map on_telemetry t.

(** The models [ollama.pull] was called with, in order. *)
Definition on_pull (e : Effect) : list string :=
  match e with
  | Ollama (ApiPull model) => [model]
  | _ => []
  end.

Definition pull_calls (t : Trace) : list string := flat_map on_pull t.

(** The arguments [ollama.chat] was called with, in order. *)
Definition on_chat (e : Effect) : list (string * list Message) :=
  match e with
  | Ollama (ApiChat model messages) => [(model, messages)]
  | _ => []
  end.

Definition chat_calls (t : Trace) : list (string * list Message) :=
  flat_map on_chat t.

(** The line breaks [console.log()] wrote during a pull. *)
Definition on_line_break (e : Effect) : list unit :=
  match e with
  | ConsoleLogBlank => [tt]
  | _ => []
  end.

Definition line_breaks (t : Trace) : nat := length (flat_map on_line_break t).

(** An effect that only touches the process's standard output. *)
Definition to_stdout (e : Effect) : bool :=
  match e with
  | StdoutWrite _ _ | ConsoleLog _ | ConsoleLogBlank | ConsoleLogObj _ => true
  | _ => false
  end.

(** [t] occurs somewhere inside [s]. *)
Definition occurs_in (t s : string) : Prop :=
  exists before after : string, s = (before ++ t ++ after)%string.

(* ================================================================== *)
(** * Notions used by the statements                                   *)
(* ================================================================== *)

(** ** History adapter *)

(** The parts of a response the adapter keeps. *)
Definition is_kept (r : ChatResponseMarkdownPart) : bool :=
  negb (JS.startsWith (value r) HIDDEN_ERROR_MESSAGE_PLACEHOLDER).

(** The in-order concatenation of the kept parts. *)
Definition kept_text (response : list ChatResponseMarkdownPart) : string :=
  fold_right String.append EmptyString (map value (filter is_kept response)).

(** The messages one turn contributes. *)
Definition messages_of_turn (m : Turn) : list Message :=
  match m with
  | ChatRequestTurn p => [{| role := "user"; content := p |}]
  | ChatResponseTurn response =>
      match kept_text response with
      | EmptyString => []
      | String _ _ as text => [{| role := "assistant"; content := text |}]
      end
  | OtherTurn => []
  end.

(** The prompts of the user turns of a history, in order. *)
Fixpoint user_prompts (h : list Turn) : list string :=
  match h with
  | [] => []
  | ChatRequestTurn p :: h' => p :: user_prompts h'
  | _ :: h' => user_prompts h'
  end.

Definition is_user (m : Message) : bool := String.eqb (role m) "user".

(** ** Pull progress *)

(** The event passes the test [if (part.digest)]. *)
Definition carries_digest (part : ProgressResponse) : bool :=
  JS.truthy_ostring (digest part).

(** The event is reported as 100%. *)
Definition is_complete (part : ProgressResponse) : bool :=
  JS.num_eq (percent_of part) (JS.of_Z 100).

(** The line the chat stream shows for an event without digest. *)
Definition progress_line (part : ProgressResponse) : Effect :=
  StreamProgress (status part ++ "..." ++ JS.nl).

(** The stream ended without an error. *)
Fixpoint ends_normally {A : Type} (it : AsyncIter A) : bool :=
  match it with
  | Next _ rest => ends_normally rest
  | Finished => true
  | Failed _ => false
  end.

(** The banner [pullModel] logs before it calls the client. *)
Definition pull_banner (model : string) : Effect :=
  ConsoleLog ("Pulling latest model " ++ model ++ "'s manifest...").

(** The two notifications that close a pull. *)
Definition pull_closing : Trace :=
  [StreamProgress ("Download complete!" ++ JS.nl);
   ConsoleLog "Download complete!"].

(** The notifications that announce an installation. *)
Definition install_notices (model : string) : Trace :=
  [StreamProgress ("Model " ++ model ++ " not found." ++ JS.nl);
   StreamProgress ("Installing model." ++ JS.nl);
   StreamProgress ("This might take a few minutes." ++ JS.nl)].

(** Number of line breaks the loop writes on [n] consecutive complete
    events of one digest, from the value [done] of the flag. *)
Definition breaks_on_repeats (n : nat) (done : bool) : nat :=
  if done then Nat.div2 n else Nat.div2 (S n).

(** ** The turn *)

(** Everything the [try] block does before it builds the messages. *)
Definition agentHandler_setup (w : World) : M unit :=
  let model := readModelFromConfig w in
  let host := readOllamaHostFromConfig w in
  emit (Ollama (ApiNew host)) ;;
  await_unit (ollama_new w host) ;;
  assertOllamaRunning w ;;
  assertPullModel w model.

(** The descriptors [getTools] resolves to. *)
Definition tools_of (w : World) : list ToolDescriptor :=
  match outcome_of (getTools w) with
  | Returned tools => tools
  | Threw _ => []
  end.

(** The relay loop of lines 113-117. *)
Definition agentHandler_relay (w : World) (request : ChatRequest)
  (context : ChatContext) : M unit :=
  for_await_gen
    (streamResponse w (readModelFromConfig w) (build_messages request context)
       (tools_of w))
    (fun fragment => emit (StreamMarkdown (content (message fragment)))).

(** What [streamResponse] logs, and the call it makes, before it reads
    the first chunk. *)
Definition chat_opening (w : World) (request : ChatRequest)
  (context : ChatContext) : Trace :=
  [ ConsoleLog ("Using model: " ++ readModelFromConfig w);
    ConsoleLog (readOllamaHostFromConfig w ++ "/api/chat");
    ConsoleLogObj (LogMessages (build_messages request context));
    ConsoleLogObj (LogTools (tools_of w));
    Ollama (ApiChat (readModelFromConfig w) (build_messages request context)) ].

(** What the relay loop hands to the chat stream for the chunks [l]. *)
Definition relayed (l : list ChatResponse) : Trace :=
  map (fun chunk => StreamMarkdown (content (message chunk))) l.

(** What [handleError] does with [err]. *)
Definition error_report (w : World) (err : Error) : Trace :=
  [ TelemetryLogError err;
    ConsoleLogObj (LogErr err);
    StreamMarkdown
      (if is_connectivity_error err
       then connectivity_message (readOllamaHostFromConfig w) err
       else generic_message) ].

(** What the console shows when the chat stream ends. *)
Fixpoint stream_ending (it : AsyncIter ChatResponse) : Trace :=
  match it with
  | Next _ rest => stream_ending rest
  | Finished => []
  | Failed err => [ConsoleError (err_message err)]
  end.

(** The result every turn hands to the host. *)
Definition empty_result : IAgentChatResult :=
  {| metadata := {| command := EmptyString |} |}.

(** ** Error classification as the specification words it

    The connectivity branch is chosen exactly when the error's code,
    read from the error or from its cause, is one of the two recognised
    codes. *)
Definition recognised_code (c : option string) : Prop :=
  c = Some "ERR_INVALID_URL" \/ c = Some "ECONNREFUSED".

Definition spec_connectivity_rule (w : World) (err : Error) : Prop :=
  markdowns (trace_of (handleError w err))
    = [connectivity_message (readOllamaHostFromConfig w) err]
  <-> (recognised_code (code err) \/ recognised_code (cause_code_of err)).

(** ** Concrete inputs *)

Module Sample.

(** A world with default configuration, a running server and the model
    installed, whose chat endpoint streams [chat]. *)
Definition world (chat : Error + AsyncIter ChatResponse) : World :=
  {| config_model_name := None;
     config_ollama_host := None;
     lm_tools := [];
     ollama_new := fun _ => None;
     ollama_ps := None;
     ollama_list := inr [ {| name := "deepseek-coder:1.3b" |} ];
     ollama_pull := fun _ => inr Finished;
     ollama_chat := fun _ _ => chat |}.

Definition chunk (text : string) : ChatResponse :=
  {| message := {| role := "assistant"; content := text |} |}.

Definition hello : AsyncIter ChatResponse :=
  Next (chunk "Hel") (Next (chunk "lo") Finished).

Definition request : ChatRequest := {| prompt := "Say hello" |}.

Definition context : ChatContext := {| history := [] |}.

(** A world in which no model is installed and the pull streams
    [events]. *)
Definition world_pulling (events : AsyncIter ProgressResponse) : World :=
  {| config_model_name := None;
     config_ollama_host := None;
     lm_tools := [];
     ollama_new := fun _ => None;
     ollama_ps := None;
     ollama_list := inr [ {| name := "llama3:8b" |} ];
     ollama_pull := fun _ => inr events;
     ollama_chat := fun _ _ => inr Finished |}.

(** A pull event of layer [d] with [c] of [t] bytes done. *)
Definition layer (d : string) (c t : Z) : ProgressResponse :=
  {| status := "pulling " ++ d;
     digest := Some d;
     completed := Some (JS.of_Z c);
     total := Some (JS.of_Z t) |}.

(** A pull event without digest. *)
Definition notice (s : string) : ProgressResponse :=
  {| status := s; digest := None; completed := None; total := None |}.

(** An error with a direct code ECONNREFUSED and no cause. *)
Definition refused_directly : Error :=
  {| code := Some "ECONNREFUSED";
     cause := None;
     err_message := "connect ECONNREFUSED 127.0.0.1:11434" |}.

(** The error [fetch] raises when the server is down. *)
Definition fetch_failed : Error :=
  {| code := None;
     cause := Some {| cause_code := Some "ECONNREFUSED" |};
     err_message := "fetch failed" |}.

(** The error the client raises when the server answers with an error. *)
Definition model_error : Error :=
  {| code := None; cause := None; err_message := "model runner crashed" |}.

End Sample.

(* ================================================================== *)
(** * Further notions                                                  *)
(* ================================================================== *)

(** ** Streams and generators *)

(** The error a stream ends with, if it ends with one. *)
Fixpoint failure_of {A : Type} (it : AsyncIter A) : option Error :=
  match it with
  | Next _ rest => failure_of rest
  | Finished => None
  | Failed err => Some err
  end.

(** The values a generator yields, in order. *)
Fixpoint gen_yields {A : Type} (g : Gen A) : list A :=
  match g with
  | GenYield _ a rest => a :: gen_yields rest
  | GenReturn _ | GenThrow _ _ => []
  end.

(** The generator ends by throwing. *)
Fixpoint gen_throws {A : Type} (g : Gen A) : bool :=
  match g with
  | GenYield _ _ rest => gen_throws rest
  | GenReturn _ => false
  | GenThrow _ _ => true
  end.

(** Everything a generator does by itself, in order. *)
Fixpoint gen_effects {A : Type} (g : Gen A) : Trace :=
  match g with
  | GenYield before _ rest => before ++ gen_effects rest
  | GenReturn before | GenThrow before _ => before
  end.

(** ** More observations on traces *)

(** The calls to the Ollama client, in order. *)
Definition on_api (e : Effect) : list ApiCall :=
  match e with
  | Ollama c => [c]
  | _ => []
  end.

Definition api_calls (t : Trace) : list ApiCall := flat_map on_api t.

(** The status and percent of every [process.stdout.write], in order. *)
Definition on_stdout_write (e : Effect) : list (string * JS.number) :=
  match e with
  | StdoutWrite st pc => [(st, pc)]
  | _ => []
  end.

Definition stdout_writes (t : Trace) : list (string * JS.number) :=
  flat_map on_stdout_write t.

(** ** Pull progress *)

(** The events of a pull that pass the test [if (part.digest)]. *)
Definition digest_events (it : AsyncIter ProgressResponse)
  : list ProgressResponse :=
  filter carries_digest (items it).

(** How many of them are reported as 100%. *)
Definition completions (it : AsyncIter ProgressResponse) : nat :=
  length (filter is_complete (digest_events it)).

(** No two neighbours of [l] are both [true], nor are [prev] and the head
    of [l]. *)
Fixpoint isolated (prev : bool) (l : list bool) : bool :=
  match l with
  | [] => true
  | c :: l' => negb (prev && c) && isolated c l'
  end.



(** ** The turn *)

(** The installed names pass the name-prefix test for [model]. *)
Definition is_installed (models : list ModelResponse) (model : string) : bool :=
  existsb (fun m => JS.startsWith (name m) model) models.

(** The first failure among the steps before the chat call: client
    construction, liveness probe, listing, and the pull when the model is
    not installed. *)
Definition setup_failure (w : World) : option Error :=
  match ollama_new w (readOllamaHostFromConfig w) with
  | Some err => Some err
  | None =>
      match ollama_ps w with
      | Some err => Some err
      | None =>
          match ollama_list w with
          | inl err => Some err
          | inr models =>
              if is_installed models (readModelFromConfig w) then None
              else
                match ollama_pull w (readModelFromConfig w) with
                | inl err => Some err
                | inr it => failure_of it
                end
          end
      end
  end.

(** What the chat stream shows of an installation: nothing unless the
    listing succeeded and the model is missing; then the three notices,
    one line per pull event without digest, and the closing notification
    when the pull stream ended without error. *)
Definition install_stream (w : World) : Trace :=
  match ollama_new w (readOllamaHostFromConfig w), ollama_ps w, ollama_list w with
  | None, None, inr models =>
      if is_installed models (readModelFromConfig w) then []
      else
        install_notices (readModelFromConfig w)
        ++ match ollama_pull w (readModelFromConfig w) with
           | inl _ => []
           | inr it =>
               map progress_line
                   (filter (fun part => negb (carries_digest part)) (items it))
               ++ (if ends_normally it
                   then [StreamProgress ("Download complete!" ++ JS.nl)]
                   else [])
           end
  | _, _, _ => []
  end.

(** The same world with other tools registered at the host. *)
Definition with_tools (w : World) (tools : list LanguageModelToolInformation)
  : World :=
  {| config_model_name := config_model_name w;
     config_ollama_host := config_ollama_host w;
     lm_tools := tools;
     ollama_new := ollama_new w;
     ollama_ps := ollama_ps w;
     ollama_list := ollama_list w;
     ollama_pull := ollama_pull w;
     ollama_chat := ollama_chat w |}.

(** ** History adapter *)

(** A message the model API accepts from the adapter: a user message, or
    an assistant message with some text. *)
Definition well_formed_message (m : Message) : Prop :=
  role m = "user" \/ (role m = "assistant" /\ content m <> EmptyString).

(** The turn is a request or a response turn. *)
Definition is_known_turn (m : Turn) : bool :=
  match m with
  | OtherTurn => false
  | _ => true
  end.

(* ================================================================== *)
(** * Basic facts                                                      *)
(* ================================================================== *)

Section StringFacts.

Lemma append_nil_r (s : string) : (s ++ EmptyString)%string = s.
Proof. induction s as [|c s IH]; simpl; [reflexivity | now rewrite IH]. Qed.

Lemma append_assoc (a b c : string) :
  ((a ++ b) ++ c)%string = (a ++ (b ++ c))%string.
Proof. induction a as [|x a IH]; simpl; [reflexivity | now rewrite IH]. Qed.

Lemma prefix_append (p s : string) : String.prefix p (p ++ s) = true.
Proof.
  induction p as [|c p IH]; simpl.
  - now destruct s.
  - destruct (ascii_dec c c) as [_|ne]; [exact IH | now elim ne].
Qed.

Lemma occurs_in_here (t after : string) : occurs_in t (t ++ after).
Proof. exists EmptyString, after. reflexivity. Qed.

Lemma occurs_in_later (t s before : string) :
  occurs_in t s -> occurs_in t (before ++ s).
Proof.
  intros (a & b & ->). exists (before ++ a)%string, b.
  now rewrite append_assoc.
Qed.

End StringFacts.

Section MonadFacts.

Context {A B C : Type}.

Lemma bind_ret_l (a : A) (k : A -> M B) : bind (ret a) k = k a.
Proof. unfold bind, ret. now destruct (k a). Qed.

Lemma bind_assoc (m : M A) (k : A -> M B) (h : B -> M C) :
  bind (bind m k) h = bind m (fun a => bind (k a) h).
Proof.
  destruct m as [t [a|err]]; simpl; [|reflexivity].
  destruct (k a) as [t' [b|err]]; simpl; [|reflexivity].
  destruct (h b) as [t'' r]. now rewrite app_assoc.
Qed.

Lemma bind_returned (m : M A) (k : A -> M B) (a : A) :
  outcome_of m = Returned a ->
  bind m k = (trace_of m ++ trace_of (k a), outcome_of (k a)).
Proof.
  destruct m as [t r]; simpl; intros ->. now destruct (k a).
Qed.

Lemma bind_threw (m : M A) (k : A -> M B) (err : Error) :
  outcome_of m = Threw err -> bind m k = (trace_of m, Threw err).
Proof. destruct m as [t r]; simpl; now intros ->. Qed.

Lemma bind_emit (e : Effect) (k : unit -> M B) :
  bind (emit e) k = (e :: trace_of (k tt), outcome_of (k tt)).
Proof. unfold bind, emit. now destruct (k tt). Qed.

End MonadFacts.

Lemma try_catch_returned {A : Type} (m : M A) (h : Error -> M A) (a : A) :
  outcome_of m = Returned a -> try_catch m h = m.
Proof. destruct m as [t r]; simpl; now intros ->. Qed.

Lemma try_catch_threw {A : Type} (m : M A) (h : Error -> M A) (err : Error) :
  outcome_of m = Threw err ->
  try_catch m h = (trace_of m ++ trace_of (h err), outcome_of (h err)).
Proof. destruct m as [t r]; simpl; intros ->. now destruct (h err). Qed.

Section TraceFacts.

(** Every observation distributes over the concatenation of traces. *)

Lemma host_stream_app (t u : Trace) :
  host_stream (t ++ u) = host_stream t ++ host_stream u.
Proof. apply flat_map_app. Qed.

Lemma markdowns_app (t u : Trace) :
  markdowns (t ++ u) = markdowns t ++ markdowns u.
Proof. apply flat_map_app. Qed.

Lemma telemetry_app (t u : Trace) :
  telemetry (t ++ u) = telemetry t ++ telemetry u.
Proof. apply flat_map_app. Qed.

Lemma pull_calls_app (t u : Trace) :
  pull_calls (t ++ u) = pull_calls t ++ pull_calls u.
Proof. apply flat_map_app. Qed.

Lemma chat_calls_app (t u : Trace) :
  chat_calls (t ++ u) = chat_calls t ++ chat_calls u.
Proof. apply flat_map_app. Qed.

Lemma line_breaks_app (t u : Trace) :
  line_breaks (t ++ u) = line_breaks t + line_breaks u.
Proof. unfold line_breaks. now rewrite flat_map_app, length_app. Qed.

End TraceFacts.

Create Rewrite HintDb trace.
#[local] Hint Rewrite host_stream_app markdowns_app telemetry_app
  pull_calls_app chat_calls_app line_breaks_app : trace.

(* ================================================================== *)
(** * History adapter                                                  *)
(* ================================================================== *)

Section HistoryAdapter.

Lemma kept_text_cons (r : ChatResponseMarkdownPart)
  (response : list ChatResponseMarkdownPart) :
  kept_text (r :: response)
  = if is_kept r then (value r ++ kept_text response)%string
    else kept_text response.
Proof. unfold kept_text. simpl. now destruct (is_kept r). Qed.

(** The inner loop accumulates the kept parts, in order. *)
Lemma fold_append_part (response : list ChatResponseMarkdownPart) :
  forall acc : string,
    fold_left append_part response acc = (acc ++ kept_text response)%string.
Proof.
  induction response as [|r response IH]; intros acc.
  - simpl. now rewrite append_nil_r.
  - simpl fold_left. rewrite IH, kept_text_cons.
    unfold append_part. fold (is_kept r).
    destruct (is_kept r); [now rewrite append_assoc | reflexivity].
Qed.

(** One pass of the outer loop appends the messages of the turn. *)
Lemma append_turn_spec (messages : list Message) (m : Turn) :
  append_turn messages m = messages ++ messages_of_turn m.
Proof.
  destruct m as [p|response|]; simpl.
  - reflexivity.
  - rewrite fold_append_part. simpl.
    destruct (kept_text response); simpl; [now rewrite app_nil_r | reflexivity].
  - now rewrite app_nil_r.
Qed.

Lemma fold_append_turn (h : list Turn) :
  forall acc, fold_left append_turn h acc = acc ++ flat_map messages_of_turn h.
Proof.
  induction h as [|m h IH]; intros acc; simpl.
  - now rewrite app_nil_r.
  - now rewrite IH, append_turn_spec, <- app_assoc.
Qed.

(** The adapter is the in-order concatenation of what each turn
    contributes. *)
Lemma appendAssistantHistory_turns (context : ChatContext) :
  appendAssistantHistory context = flat_map messages_of_turn (history context).
Proof. unfold appendAssistantHistory. now rewrite fold_append_turn. Qed.

Lemma appendAssistantHistory_app (h1 h2 : list Turn) :
  appendAssistantHistory {| history := h1 ++ h2 |}
  = appendAssistantHistory {| history := h1 |}
    ++ appendAssistantHistory {| history := h2 |}.
Proof. rewrite !appendAssistantHistory_turns. simpl. apply flat_map_app. Qed.

(** A response whose parts all carry the marker keeps no text. *)
Lemma kept_text_all_hidden (response : list ChatResponseMarkdownPart) :
  forallb (fun r => String.prefix HIDDEN_ERROR_MESSAGE_PLACEHOLDER (value r))
          response = true ->
  kept_text response = EmptyString.
Proof.
  induction response as [|r response IH]; [reflexivity|].
  simpl forallb. intros H. apply andb_prop in H as [Hr Hrest].
  rewrite kept_text_cons. unfold is_kept, JS.startsWith. rewrite Hr.
  now apply IH.
Qed.

(** The user messages of the adapter's output are the user turns. *)
Lemma user_messages_of_turns (h : list Turn) :
  filter is_user (flat_map messages_of_turn h)
  = map (fun p => {| role := "user"; content := p |}) (user_prompts h).
Proof.
  induction h as [|m h IH]; simpl; [reflexivity|].
  rewrite filter_app, IH. destruct m as [p|response|]; simpl.
  - reflexivity.
  - now destruct (kept_text response).
  - reflexivity.
Qed.

(** C3: an assistant turn, wherever it stands in the history, contributes
    to the adapter's output exactly one message of role assistant whose
    content is the in-order concatenation of its parts that do not start
    with the marker, and contributes nothing when that concatenation is
    empty; in particular it contributes nothing when every part starts
    with the marker. *)
Theorem assistant_turn_projection :
  forall (before after : list Turn) (response : list ChatResponseMarkdownPart),
    appendAssistantHistory
      {| history := before ++ ChatResponseTurn response :: after |}
    = appendAssistantHistory {| history := before |}
      ++ match kept_text response with
         | EmptyString => []
         | String _ _ as text => [{| role := "assistant"; content := text |}]
         end
      ++ appendAssistantHistory {| history := after |}
    /\ kept_text response
       = fold_right String.append EmptyString
           (map value
              (filter (fun r => negb (String.prefix
                                        HIDDEN_ERROR_MESSAGE_PLACEHOLDER
                                        (value r)))
                      response))
    /\ (if forallb (fun r => String.prefix HIDDEN_ERROR_MESSAGE_PLACEHOLDER
                               (value r)) response
        then appendAssistantHistory
               {| history := before ++ ChatResponseTurn response :: after |}
             = appendAssistantHistory {| history := before ++ after |}
        else True).
Proof.
  intros before after response.
  assert (Hsplit :
    appendAssistantHistory
      {| history := before ++ ChatResponseTurn response :: after |}
    = appendAssistantHistory {| history := before |}
      ++ messages_of_turn (ChatResponseTurn response)
      ++ appendAssistantHistory {| history := after |}).
  { rewrite appendAssistantHistory_app. f_equal.
    rewrite !appendAssistantHistory_turns. reflexivity. }
  split; [exact Hsplit|]. split; [reflexivity|].
  destruct (forallb _ response) eqn:Hall; [|exact I].
  rewrite Hsplit, appendAssistantHistory_app. simpl.
  now rewrite (kept_text_all_hidden response Hall).
Qed.

(** C4: the messages of role user in the adapter's output are, in order
    and one for one, the user turns of the history, each with exactly the
    turn's prompt as content; and a user turn contributes its message at
    the place it has in the history. *)
Theorem user_turns_preserved :
  forall (h : list Turn),
    filter is_user (appendAssistantHistory {| history := h |})
    = map (fun p => {| role := "user"; content := p |}) (user_prompts h)
    /\ forall (before after : list Turn) (p : string),
         appendAssistantHistory
           {| history := before ++ ChatRequestTurn p :: after |}
         = appendAssistantHistory {| history := before |}
           ++ [{| role := "user"; content := p |}]
           ++ appendAssistantHistory {| history := after |}.
Proof.
  intros h. split.
  - rewrite appendAssistantHistory_turns. apply user_messages_of_turns.
  - intros before after p.
    rewrite appendAssistantHistory_app. f_equal.
    rewrite !appendAssistantHistory_turns. reflexivity.
Qed.

End HistoryAdapter.

(* ================================================================== *)
(** * Model installer                                                  *)
(* ================================================================== *)

Section PullLoop.

(** The loop body on an event that carries a digest: one write to the
    process's standard output, then a line break exactly when the event
    is complete and the flag is clear. *)
Lemma pullModel_body_digest (part : ProgressResponse) (done : bool) :
  carries_digest part = true ->
  pullModel_body part done
  = (StdoutWrite (status part) (percent_of part)
       :: (if is_complete part && negb done then [ConsoleLogBlank] else []),
     Returned (is_complete part && negb done)).
Proof.
  unfold pullModel_body, carries_digest, is_complete. intros ->.
  now destruct (JS.num_eq _ _ && negb done).
Qed.

(** The loop body on an event without digest: a progress line on the chat
    stream, echoed on the console; the flag is left alone. *)
Lemma pullModel_body_plain (part : ProgressResponse) (done : bool) :
  carries_digest part = false ->
  pullModel_body part done
  = ([progress_line part; ConsoleLog (status part)], Returned done).
Proof. unfold pullModel_body, carries_digest. now intros ->. Qed.

(** The loop body never throws. *)
Lemma pullModel_body_returns (part : ProgressResponse) (done : bool) :
  exists done', outcome_of (pullModel_body part done) = Returned done'.
Proof.
  destruct (carries_digest part) eqn:H.
  - rewrite (pullModel_body_digest _ _ H). now eexists.
  - rewrite (pullModel_body_plain _ _ H). now eexists.
Qed.

(** One unfolding of the loop. *)
Lemma for_await_next {A S : Type} (a : A) (rest : AsyncIter A)
  (body : A -> S -> M S) (s s' : S) :
  outcome_of (body a s) = Returned s' ->
  for_await (Next a rest) body s
  = (trace_of (body a s) ++ trace_of (for_await rest body s'),
     outcome_of (for_await rest body s')).
Proof. intros H. simpl. now apply bind_returned. Qed.

(** The loop ends the way the stream ends. *)
Lemma pull_loop_outcome (it : AsyncIter ProgressResponse) :
  forall done,
    match outcome_of (for_await it pullModel_body done) with
    | Returned _ => ends_normally it = true
    | Threw _ => ends_normally it = false
    end.
Proof.
  induction it as [part rest IH| |err]; intros done; simpl; try reflexivity.
  destruct (pullModel_body_returns part done) as [done' H].
  fold (for_await rest pullModel_body).
  rewrite (bind_returned _ _ _ H). simpl. apply IH.
Qed.

(** What the chat stream sees of the loop: one progress line for each
    event without digest, in order, and nothing else. *)
Lemma pull_loop_host_stream (it : AsyncIter ProgressResponse) :
  forall done,
    host_stream (trace_of (for_await it pullModel_body done))
    = map progress_line
        (filter (fun part => negb (carries_digest part)) (items it)).
Proof.
  induction it as [part rest IH| |err]; intros done; simpl; try reflexivity.
  destruct (pullModel_body_returns part done) as [done' H].
  fold (for_await rest pullModel_body).
  rewrite (bind_returned _ _ _ H). simpl trace_of.
  rewrite host_stream_app, IH.
  destruct (carries_digest part) eqn:Hd; simpl.
  - rewrite (pullModel_body_digest _ _ Hd). simpl.
    now destruct (is_complete part && negb done).
  - now rewrite (pullModel_body_plain _ _ Hd).
Qed.

(** The loop calls the client no further. *)
Lemma pull_loop_calls (it : AsyncIter ProgressResponse) :
  forall done,
    pull_calls (trace_of (for_await it pullModel_body done)) = []
    /\ chat_calls (trace_of (for_await it pullModel_body done)) = []
    /\ markdowns (trace_of (for_await it pullModel_body done)) = []
    /\ telemetry (trace_of (for_await it pullModel_body done)) = [].
Proof.
  induction it as [part rest IH| |err]; intros done; simpl;
    try (repeat split; reflexivity).
  destruct (pullModel_body_returns part done) as [done' H].
  fold (for_await rest pullModel_body).
  rewrite (bind_returned _ _ _ H). simpl trace_of.
  autorewrite with trace.
  destruct (IH done') as (-> & -> & -> & ->).
  destruct (carries_digest part) eqn:Hd.
  - rewrite (pullModel_body_digest _ _ Hd). simpl.
    now destruct (is_complete part && negb done).
  - now rewrite (pullModel_body_plain _ _ Hd).
Qed.

(** On a run of complete events for one digest the flag alternates, so
    every second event breaks the line again. *)
Lemma pull_loop_repeated_completion (events : list ProgressResponse) :
  Forall (fun part => carries_digest part = true /\ is_complete part = true)
         events ->
  forall done,
    line_breaks (trace_of (for_await (deliver events Finished)
                                     pullModel_body done))
    = breaks_on_repeats (length events) done.
Proof.
  induction 1 as [|part events [Hd Hc] _ IH]; intros done.
  - now destruct done.
  - simpl deliver. simpl for_await. fold (for_await (A:=ProgressResponse) (S:=bool)).
    rewrite (pullModel_body_digest _ _ Hd), Hc. simpl andb.
    erewrite bind_returned by reflexivity. simpl trace_of.
    change (StdoutWrite (status part) (percent_of part) :: ?t)
      with ([StdoutWrite (status part) (percent_of part)] ++ t).
    rewrite !line_breaks_app, IH.
    destruct done; simpl; [reflexivity|].
    now destruct (length events).
Qed.

End PullLoop.

Section Installer.

(** [pullModel], step by step: banner, the call, the loop, and the
    closing notifications when the stream ended without error. *)
Lemma pullModel_run (w : World) (model : string) :
  pullModel w model
  = match ollama_pull w model with
    | inl err => ([pull_banner model; Ollama (ApiPull model)], Threw err)
    | inr it =>
        let loop := for_await it pullModel_body false in
        (pull_banner model :: Ollama (ApiPull model)
           :: trace_of loop ++ (if ends_normally it then pull_closing else []),
         match outcome_of loop with
         | Returned _ => Returned tt
         | Threw err => Threw err
         end)
    end.
Proof.
  unfold pullModel. rewrite !bind_emit.
  destruct (ollama_pull w model) as [err|it]; simpl await.
  - reflexivity.
  - rewrite bind_ret_l.
    pose proof (pull_loop_outcome it false) as Hend.
    destruct (for_await it pullModel_body false) as [t [done|err]] eqn:Hloop;
      simpl in Hend; rewrite Hend; simpl.
    + reflexivity.
    + now rewrite app_nil_r.
Qed.

(** A pull calls [ollama.pull] once, whatever the server streams. *)
Lemma pullModel_calls_pull_once (w : World) (model : string) :
  pull_calls (trace_of (pullModel w model)) = [model].
Proof.
  rewrite pullModel_run.
  destruct (ollama_pull w model) as [err|it]; [reflexivity|].
  cbv zeta. simpl trace_of.
  change (pull_banner model :: Ollama (ApiPull model) :: ?t)
    with ([pull_banner model; Ollama (ApiPull model)] ++ t).
  autorewrite with trace.
  destruct (pull_loop_calls it false) as (-> & _).
  now destruct (ends_normally it).
Qed.

(** A pull neither calls the chat endpoint, nor writes markdown, nor logs
    to telemetry. *)
Lemma pullModel_quiet (w : World) (model : string) :
  chat_calls (trace_of (pullModel w model)) = []
  /\ markdowns (trace_of (pullModel w model)) = []
  /\ telemetry (trace_of (pullModel w model)) = [].
Proof.
  rewrite pullModel_run.
  destruct (ollama_pull w model) as [err|it]; [now repeat split|].
  cbv zeta. simpl trace_of.
  change (pull_banner model :: Ollama (ApiPull model) :: ?t)
    with ([pull_banner model; Ollama (ApiPull model)] ++ t).
  autorewrite with trace.
  destruct (pull_loop_calls it false) as (_ & -> & -> & ->).
  now destruct (ends_normally it).
Qed.

(** The name-prefix test of [assertPullModel], as a test on the list. *)
Lemma matching_names_empty (models : list ModelResponse) (model : string) :
  Nat.eqb (length (matching_names models model)) 0
  = negb (existsb (fun m => JS.startsWith (name m) model) models).
Proof.
  unfold matching_names.
  induction models as [|m models IH]; simpl; [reflexivity|].
  destruct (JS.startsWith (name m) model); simpl; [reflexivity | exact IH].
Qed.

Lemma assertPullModel_run (w : World) (model : string) :
  assertPullModel w model
  = match ollama_list w with
    | inl err => ([Ollama ApiList], Threw err)
    | inr models =>
        if existsb (fun m => JS.startsWith (name m) model) models
        then ([Ollama ApiList], Returned tt)
        else (Ollama ApiList :: install_notices model
                ++ trace_of (pullModel w model),
              outcome_of (pullModel w model))
    end.
Proof.
  unfold assertPullModel. rewrite bind_emit.
  destruct (ollama_list w) as [err|models]; simpl await.
  - reflexivity.
  - rewrite bind_ret_l, matching_names_empty.
    destruct (existsb _ models); simpl negb; cbv iota.
    + reflexivity.
    + now rewrite !bind_emit.
Qed.

End Installer.

Section Percent.

Lemma div_eucl_exact (m : positive) :
  Z.div_eucl (Z.shiftl (Zpos m) 53) (Zpos m) = (9007199254740992, 0)%Z.
Proof.
  rewrite Z.shiftl_mul_pow2 by lia.
  assert (H : forall a b, Z.div_eucl a b = (a / b, a mod b)%Z).
  { intros a b. unfold Z.div, Z.modulo. now destruct (Z.div_eucl a b). }
  rewrite H, Z.mul_comm, Z.div_mul, Z.mod_mul by lia. reflexivity.
Qed.

(** A finite non-zero double divided by itself is exactly 1. *)
Lemma div_self (s : bool) (m : positive) (e : Z) :
  JS.div (S754_finite s m e) (S754_finite s m e)
  = S754_finite false 4503599627370496 (-52).
Proof.
  unfold JS.div, SFdiv, SFdiv_core_binary.
  rewrite !Z.sub_diag, xorb_nilpotent.
  change (Z.min (fexp JS.prec JS.emax 0) 0) with (-53)%Z.
  change (0 - -53)%Z with 53%Z.
  cbv iota.
  change (IntDef.Z.div_eucl (IntDef.Z.shiftl (Z.pos m) 53) (Z.pos m))
    with (Z.div_eucl (Z.shiftl (Z.pos m) 53) (Z.pos m)).
  rewrite div_eucl_exact.
  unfold new_location.
  destruct (Z.even (Z.pos m)); reflexivity.
Qed.

(** An event whose [completed] equals its [total], both the same finite
    non-zero number, is reported as exactly 100%. *)
Lemma percent_of_complete (st : string) (d : option string) (s : bool)
  (m : positive) (e : Z) :
  percent_of {| status := st; digest := d;
                completed := Some (S754_finite s m e);
                total := Some (S754_finite s m e) |} = JS.of_Z 100.
Proof.
  unfold percent_of. cbn [completed total JS.truthy_number andb].
  rewrite div_self. reflexivity.
Qed.


(** [n] copies of one complete event of one digest break the line
    [(n + 1) / 2] times: once on the first, and again on every second
    copy after it. *)
Lemma pull_loop_same_event_repeated (st d : string) (s : bool) (m : positive)
  (e : Z) (n : nat) :
  JS.truthy_string d = true ->
  line_breaks
    (trace_of
       (for_await
          (deliver (repeat {| status := st; digest := Some d;
                              completed := Some (S754_finite s m e);
                              total := Some (S754_finite s m e) |} n)
                   Finished)
          pullModel_body false))
  = Nat.div2 (S n).
Proof.
  intros Hd. rewrite pull_loop_repeated_completion.
  - now rewrite repeat_length.
  - apply Forall_forall. intros part Hin. apply repeat_spec in Hin as ->.
    split; [exact Hd|]. unfold is_complete.
    now rewrite percent_of_complete.
Qed.

End Percent.

Section InstallerClaims.

(** C2 (the code at the failing input): three events of one digest with
    [completed] equal to [total] are each reported as 100%, yet the line
    break is written twice, on the first and again on the third; and when
    two different digests complete one after the other the line break is
    written once only.  The flag is cleared by the [else] branch on the
    second complete event, so completions are not counted once each. *)
Theorem pull_line_break_on_duplicates :
  let full := Sample.layer "sha256:6e4c38e1172f" 1048576 1048576 in
  let other := Sample.layer "sha256:590d74a5569b" 4096 4096 in
  carries_digest full = true
  /\ percent_of full = JS.of_Z 100
  /\ percent_of other = JS.of_Z 100
  /\ line_breaks
       (trace_of (pullModel
                    (Sample.world_pulling (deliver [full; full; full] Finished))
                    MODEL)) = 2
  /\ line_breaks
       (trace_of (pullModel
                    (Sample.world_pulling (deliver [full; other] Finished))
                    MODEL)) = 1.
Proof. vm_compute. repeat split. Qed.

(** C6: when [ollama.list()] answers, [assertPullModel] either finds an
    installed name that starts with the requested name, and then does
    nothing more (no call to pull), or finds none, and then emits the
    three progress notifications, calls [pullModel], which calls
    [ollama.pull] exactly once, and ends the way that pull ends. *)
Theorem assertPullModel_pulls_once :
  forall (w : World) (model : string) (models : list ModelResponse),
    ollama_list w = inr models ->
    if existsb (fun m => JS.startsWith (name m) model) models
    then assertPullModel w model = ([Ollama ApiList], Returned tt)
         /\ pull_calls (trace_of (assertPullModel w model)) = []
    else trace_of (assertPullModel w model)
         = [Ollama ApiList;
            StreamProgress ("Model " ++ model ++ " not found." ++ JS.nl);
            StreamProgress ("Installing model." ++ JS.nl);
            StreamProgress ("This might take a few minutes." ++ JS.nl)]
           ++ trace_of (pullModel w model)
         /\ outcome_of (assertPullModel w model)
            = outcome_of (pullModel w model)
         /\ pull_calls (trace_of (assertPullModel w model)) = [model].
Proof.
  intros w model models Hlist.
  rewrite assertPullModel_run, Hlist.
  destruct (existsb _ models).
  - split; reflexivity.
  - split; [reflexivity|]. split; [reflexivity|].
    cbn [trace_of fst].
    change (Ollama ApiList :: install_notices model ++ ?t)
      with ((Ollama ApiList :: install_notices model) ++ t).
    rewrite pull_calls_app, pullModel_calls_pull_once. reflexivity.
Qed.

Lemma assertPullModel_pulls_once_witness :
  ollama_list (Sample.world_pulling Finished)
    = inr [ {| name := "llama3:8b" |} ]
  /\ pull_calls
       (trace_of (assertPullModel (Sample.world_pulling Finished) MODEL))
     = [MODEL].
Proof.
  split; [reflexivity|].
  exact (proj2 (proj2
    (assertPullModel_pulls_once (Sample.world_pulling Finished) MODEL
       [ {| name := "llama3:8b" |} ] eq_refl))).
Defined.

(** C10: during a pull, an event that carries a digest reaches the
    process's standard output only and leaves the chat stream as it was;
    the chat stream receives one progress line per event without digest,
    in order, and the closing notification when the stream ended without
    error, so it is the same as for the pull with the digest events
    removed. *)
Theorem pull_digest_events_off_stream :
  forall (w : World) (model : string),
    host_stream (trace_of (pullModel w model))
    = match ollama_pull w model with
      | inl _ => []
      | inr it =>
          map (fun part => StreamProgress (status part ++ "..." ++ JS.nl))
              (filter (fun part => negb (JS.truthy_ostring (digest part)))
                      (items it))
          ++ (if ends_normally it
              then [StreamProgress ("Download complete!" ++ JS.nl)]
              else [])
      end
    /\ forall (part : ProgressResponse) (done : bool),
         JS.truthy_ostring (digest part) = true ->
         host_stream (trace_of (pullModel_body part done)) = []
         /\ forallb to_stdout (trace_of (pullModel_body part done)) = true.
Proof.
  intros w model. split.
  - rewrite pullModel_run.
    destruct (ollama_pull w model) as [err|it]; [reflexivity|].
    cbv zeta. simpl trace_of.
    change (pull_banner model :: Ollama (ApiPull model) :: ?t)
      with ([pull_banner model; Ollama (ApiPull model)] ++ t).
    rewrite !host_stream_app, pull_loop_host_stream.
    now destruct (ends_normally it).
  - intros part done Hd.
    rewrite (pullModel_body_digest part done Hd). simpl.
    now destruct (is_complete part && negb done).
Qed.

Lemma pull_digest_events_off_stream_witness :
  JS.truthy_ostring (digest (Sample.layer "sha256:6e4c38e1172f" 512 1024))
    = true
  /\ host_stream
       (trace_of (pullModel_body
                    (Sample.layer "sha256:6e4c38e1172f" 512 1024) false))
     = [].
Proof.
  split; [reflexivity|].
  exact (proj1 (proj2
    (pull_digest_events_off_stream (Sample.world_pulling Finished) MODEL)
    (Sample.layer "sha256:6e4c38e1172f" 512 1024) false eq_refl)).
Defined.

End InstallerClaims.

(* ================================================================== *)
(** * Error classifier                                                 *)
(* ================================================================== *)

Section Classifier.

Lemma handleError_run (w : World) (err : Error) :
  handleError w err = (error_report w err, Returned tt).
Proof.
  unfold handleError, error_report, l10n_t. rewrite !bind_emit.
  now destruct (is_connectivity_error err).
Qed.

(** The condition of the classifier, as a proposition. *)
Lemma is_connectivity_error_iff (err : Error) :
  is_connectivity_error err = true
  <-> code err = Some "ERR_INVALID_URL"
      \/ cause_code_of err = Some "ECONNREFUSED".
Proof.
  unfold is_connectivity_error, JS.strict_eq. rewrite orb_true_iff.
  destruct (code err) as [c|], (cause_code_of err) as [k|];
    rewrite ?String.eqb_eq; split; intros [H|H];
    try discriminate; try (injection H as ->); subst; auto.
Qed.

Lemma connectivity_message_marked (host : string) (err : Error) :
  String.prefix HIDDEN_ERROR_MESSAGE_PLACEHOLDER
                (connectivity_message host err) = true.
Proof. unfold connectivity_message. apply prefix_append. Qed.

Lemma generic_message_unmarked :
  String.prefix HIDDEN_ERROR_MESSAGE_PLACEHOLDER generic_message = false.
Proof. reflexivity. Qed.

Lemma messages_differ (host : string) (err : Error) :
  connectivity_message host err <> generic_message.
Proof.
  intros H. pose proof (connectivity_message_marked host err) as Hm.
  rewrite H in Hm. discriminate Hm.
Qed.

(** In the connectivity branch the printed code is the error's own code
    when it has a non-empty one, and the code of its cause otherwise. *)
Lemma shown_code_connectivity (err : Error) :
  is_connectivity_error err = true ->
  Some (shown_code err) = code err \/ Some (shown_code err) = cause_code_of err.
Proof.
  rewrite is_connectivity_error_iff. unfold shown_code, or_else.
  intros [H|H]; rewrite H.
  - left. reflexivity.
  - destruct (code err) as [[|c s]|]; simpl; auto.
Qed.

End Classifier.

Ltac find_occurrence :=
  unfold connectivity_message;
  repeat first [ apply occurs_in_here | apply occurs_in_later ].

Section ClassifierClaims.

(** C1 (as amended): [handleError] renders the connectivity message
    exactly when the error's own code is ERR_INVALID_URL or the code of
    its cause is ECONNREFUSED, and the generic fallback for every other
    error; the connectivity message starts with the marker and contains
    the configured host, the error's message and its code; the generic
    fallback does not start with the marker. *)
Theorem handleError_classification :
  forall (w : World) (err : Error),
    (markdowns (trace_of (handleError w err))
       = [connectivity_message (readOllamaHostFromConfig w) err]
     <-> (code err = Some "ERR_INVALID_URL"
          \/ cause_code_of err = Some "ECONNREFUSED"))
    /\ (markdowns (trace_of (handleError w err)) = [generic_message]
        <-> ~ (code err = Some "ERR_INVALID_URL"
               \/ cause_code_of err = Some "ECONNREFUSED"))
    /\ String.prefix HIDDEN_ERROR_MESSAGE_PLACEHOLDER
         (connectivity_message (readOllamaHostFromConfig w) err) = true
    /\ occurs_in (readOllamaHostFromConfig w)
         (connectivity_message (readOllamaHostFromConfig w) err)
    /\ occurs_in (err_message err)
         (connectivity_message (readOllamaHostFromConfig w) err)
    /\ occurs_in (shown_code err)
         (connectivity_message (readOllamaHostFromConfig w) err)
    /\ String.prefix HIDDEN_ERROR_MESSAGE_PLACEHOLDER generic_message = false.
Proof.
  intros w err. rewrite handleError_run. unfold error_report. cbn [trace_of fst].
  change (markdowns [?a; ?b; StreamMarkdown ?s]) with [s].
  rewrite <- is_connectivity_error_iff.
  pose proof (messages_differ (readOllamaHostFromConfig w) err) as Hne.
  split; [|split; [|split; [|split; [|split; [|split]]]]].
  - split.
    + destruct (is_connectivity_error err); [reflexivity|].
      intros H. injection H as H. now elim Hne.
    + now intros ->.
  - split.
    + destruct (is_connectivity_error err); [|discriminate].
      intros H. injection H as H. now elim Hne.
    + intros H. now destruct (is_connectivity_error err); [elim H|].
  - apply connectivity_message_marked.
  - find_occurrence.
  - find_occurrence.
  - find_occurrence.
  - reflexivity.
Qed.

(** C1 (as the claim words it) fails: an error whose own code is
    ECONNREFUSED and that has no cause carries a recognised code, yet the
    generic fallback is rendered. *)
Lemma direct_refusal_is_generic :
  ~ spec_connectivity_rule (Sample.world (inr Finished)) Sample.refused_directly.
Proof.
  intros [_ H].
  assert (Hcode : recognised_code (code Sample.refused_directly)
                  \/ recognised_code (cause_code_of Sample.refused_directly)).
  { left. right. reflexivity. }
  specialize (H Hcode). vm_compute in H. discriminate H.
Qed.

End ClassifierClaims.

(* ================================================================== *)
(** * Response relay and turn handler                                  *)
(* ================================================================== *)

Section Relay.

Lemma items_deliver {A : Type} (l : list A) (tail : AsyncIter A) :
  items (deliver l tail) = l ++ items tail.
Proof. induction l as [|a l IH]; simpl; [reflexivity | now rewrite IH]. Qed.

Lemma stream_ending_deliver (l : list ChatResponse)
  (tail : AsyncIter ChatResponse) :
  stream_ending (deliver l tail) = stream_ending tail.
Proof. induction l as [|c l IH]; [reflexivity | exact IH]. Qed.

Lemma for_await_gen_after {A : Type} (t : Trace) (g : Gen A)
  (body : A -> M unit) :
  for_await_gen (gen_after t g) body
  = (t ++ trace_of (for_await_gen g body), outcome_of (for_await_gen g body)).
Proof.
  destruct g as [before a rest|before|before err]; simpl.
  - destruct (body a) as [tb [[]|e]]; simpl.
    + destruct (for_await_gen rest body) as [tr r]. simpl.
      now rewrite <- !app_assoc.
    + now rewrite <- !app_assoc.
  - reflexivity.
  - reflexivity.
Qed.

(** The handler's loop over the generator: every chunk of the server's
    stream becomes one [stream.markdown] of its own, in order; an error of
    the stream ends the loop normally after a [console.error]. *)
Lemma relay_loop (it : AsyncIter ChatResponse) :
  for_await_gen (relay it)
    (fun fragment => emit (StreamMarkdown (content (message fragment))))
  = (relayed (items it) ++ stream_ending it, Returned tt).
Proof.
  induction it as [chunk rest IH| |err]; simpl; try reflexivity.
  rewrite IH. reflexivity.
Qed.

Lemma agentHandler_relay_run (w : World) (request : ChatRequest)
  (context : ChatContext) :
  agentHandler_relay w request context
  = match ollama_chat w (readModelFromConfig w)
            (build_messages request context) with
    | inr it =>
        (chat_opening w request context
           ++ relayed (items it) ++ stream_ending it,
         Returned tt)
    | inl err =>
        (chat_opening w request context ++ [ConsoleError (err_message err)],
         Returned tt)
    end.
Proof.
  unfold agentHandler_relay, streamResponse.
  destruct (ollama_chat _ _ _) as [err|it].
  - reflexivity.
  - rewrite for_await_gen_after, relay_loop. reflexivity.
Qed.

(** The relay never throws: a failure of the chat call or of its stream
    does not leave the generator. *)
Lemma agentHandler_relay_returns (w : World) (request : ChatRequest)
  (context : ChatContext) :
  outcome_of (agentHandler_relay w request context) = Returned tt.
Proof.
  rewrite agentHandler_relay_run. now destruct (ollama_chat _ _ _).
Qed.

Lemma relayed_markdowns (l : list ChatResponse) :
  markdowns (relayed l) = map (fun chunk => content (message chunk)) l.
Proof. induction l as [|c l IH]; simpl; [reflexivity | now rewrite <- IH]. Qed.

Lemma relayed_silent (l : list ChatResponse) :
  telemetry (relayed l) = [] /\ chat_calls (relayed l) = [].
Proof. induction l as [|c l [IH1 IH2]]; simpl; auto. Qed.

Lemma stream_ending_silent (it : AsyncIter ChatResponse) :
  markdowns (stream_ending it) = []
  /\ telemetry (stream_ending it) = []
  /\ chat_calls (stream_ending it) = [].
Proof. induction it as [c rest IH| |err]; simpl; auto. Qed.

End Relay.

Section Handler.

Lemma agentHandler_setup_run (w : World) :
  agentHandler_setup w
  = let host := readOllamaHostFromConfig w in
    match ollama_new w host with
    | Some err => ([Ollama (ApiNew host)], Threw err)
    | None =>
        match ollama_ps w with
        | Some err => ([Ollama (ApiNew host); Ollama ApiPs], Threw err)
        | None =>
            (Ollama (ApiNew host) :: Ollama ApiPs
               :: trace_of (assertPullModel w (readModelFromConfig w)),
             outcome_of (assertPullModel w (readModelFromConfig w)))
        end
    end.
Proof.
  unfold agentHandler_setup, assertOllamaRunning. cbv zeta.
  rewrite bind_emit.
  destruct (ollama_new w _) as [err|]; simpl await_unit.
  - reflexivity.
  - rewrite bind_ret_l, bind_assoc, bind_emit.
    destruct (ollama_ps w) as [err|]; simpl await_unit.
    + reflexivity.
    + rewrite !bind_ret_l. reflexivity.
Qed.

(** Before the chat call the turn neither calls the chat endpoint, nor
    writes markdown, nor logs to telemetry. *)
Lemma agentHandler_setup_quiet (w : World) :
  chat_calls (trace_of (agentHandler_setup w)) = []
  /\ markdowns (trace_of (agentHandler_setup w)) = []
  /\ telemetry (trace_of (agentHandler_setup w)) = [].
Proof.
  rewrite agentHandler_setup_run. cbv zeta.
  destruct (ollama_new w _); [now repeat split|].
  destruct (ollama_ps w); [now repeat split|].
  cbn [trace_of fst]. rewrite assertPullModel_run.
  destruct (ollama_list w) as [err|models]; [now repeat split|].
  destruct (existsb _ models); [now repeat split|].
  cbn [trace_of fst].
  destruct (pullModel_quiet w (readModelFromConfig w)) as (Hc & Hm & Ht).
  change (Ollama (ApiNew ?h) :: Ollama ApiPs :: Ollama ApiList
            :: install_notices ?m ++ ?t)
    with ([Ollama (ApiNew h); Ollama ApiPs; Ollama ApiList]
            ++ install_notices m ++ t).
  autorewrite with trace. rewrite Hc, Hm, Ht. now repeat split.
Qed.

(** The [try] block is the setup followed by the relay. *)
Lemma agentHandler_try_split (w : World) (request : ChatRequest)
  (context : ChatContext) :
  agentHandler_try w request context
  = (agentHandler_setup w ;; agentHandler_relay w request context).
Proof.
  unfold agentHandler_try, agentHandler_setup, agentHandler_relay, tools_of,
    getTools.
  rewrite bind_ret_l. cbv zeta. rewrite !bind_assoc.
  f_equal.
Qed.

(** The whole turn: when the setup succeeds the relay follows and nothing
    is caught; when the setup throws, [handleError] reports the error. *)
Lemma agentHandler_run (w : World) (request : ChatRequest)
  (context : ChatContext) :
  agentHandler w request context
  = match outcome_of (agentHandler_setup w) with
    | Returned _ =>
        (trace_of (agentHandler_setup w)
           ++ trace_of (agentHandler_relay w request context),
         Returned empty_result)
    | Threw err =>
        (trace_of (agentHandler_setup w) ++ error_report w err,
         Returned empty_result)
    end.
Proof.
  unfold agentHandler. rewrite agentHandler_try_split.
  destruct (agentHandler_setup w) as [t [[]|err]] eqn:Hsetup.
  - rewrite (bind_returned (t, Returned tt)
               (fun _ => agentHandler_relay w request context) tt eq_refl).
    rewrite agentHandler_relay_returns. simpl.
    now rewrite app_nil_r.
  - rewrite (bind_threw (t, Threw err)
               (fun _ => agentHandler_relay w request context) err eq_refl).
    unfold try_catch. cbn [trace_of fst]. rewrite handleError_run. simpl.
    now rewrite app_nil_r.
Qed.

(** A failure of the setup (client construction, liveness probe, listing,
    pull) is logged to telemetry and to the console, and only then is a
    message rendered. *)
Lemma setup_failure_reported (w : World) (request : ChatRequest)
  (context : ChatContext) (err : Error) :
  outcome_of (agentHandler_setup w) = Threw err ->
  trace_of (agentHandler w request context)
  = trace_of (agentHandler_setup w)
    ++ [ TelemetryLogError err;
         ConsoleLogObj (LogErr err);
         StreamMarkdown
           (if is_connectivity_error err
            then connectivity_message (readOllamaHostFromConfig w) err
            else generic_message) ].
Proof. intros H. rewrite agentHandler_run, H. reflexivity. Qed.

(** Once the setup has succeeded nothing is ever logged to telemetry and
    no apology is rendered, whatever the chat endpoint does. *)
Lemma chat_failure_unreported (w : World) (request : ChatRequest)
  (context : ChatContext) :
  outcome_of (agentHandler_setup w) = Returned tt ->
  telemetry (trace_of (agentHandler w request context)) = []
  /\ markdowns (trace_of (agentHandler w request context))
     = match ollama_chat w (readModelFromConfig w)
               (build_messages request context) with
       | inr it => map (fun chunk => content (message chunk)) (items it)
       | inl _ => []
       end.
Proof.
  intros H. rewrite agentHandler_run, H. cbn [trace_of fst].
  destruct (agentHandler_setup_quiet w) as (_ & Hm & Ht).
  autorewrite with trace. rewrite Hm, Ht, agentHandler_relay_run.
  destruct (ollama_chat _ _ _) as [err|it]; cbn [trace_of fst].
  - now split.
  - autorewrite with trace.
    destruct (stream_ending_silent it) as (-> & -> & _).
    destruct (relayed_silent (items it)) as (-> & _).
    rewrite relayed_markdowns. split; [reflexivity|].
    simpl. now rewrite app_nil_r.
Qed.

End Handler.

Section HandlerClaims.

(** C5: when the turn reaches the chat call and the server streams the
    chunks [chunks] (followed by whatever [tail] holds), each chunk's text
    is handed to the host's output stream by a [stream.markdown] of its
    own, in arrival order: the markdown texts of the turn begin with the
    texts of [chunks], one entry per chunk, whatever follows them, and the
    whole trace after the call is one [StreamMarkdown] per chunk.  For the
    stream "Hel", "lo" the output stream receives "Hel" and then "lo". *)
Theorem chunks_relayed_in_order :
  forall (w : World) (request : ChatRequest) (context : ChatContext)
         (chunks : list ChatResponse) (tail : AsyncIter ChatResponse),
    outcome_of (agentHandler_setup w) = Returned tt ->
    ollama_chat w (readModelFromConfig w) (build_messages request context)
      = inr (deliver chunks tail) ->
    markdowns (trace_of (agentHandler w request context))
      = map (fun chunk => content (message chunk)) chunks
        ++ map (fun chunk => content (message chunk)) (items tail)
    /\ trace_of (agentHandler w request context)
       = trace_of (agentHandler_setup w)
         ++ chat_opening w request context
         ++ map (fun chunk => StreamMarkdown (content (message chunk))) chunks
         ++ map (fun chunk => StreamMarkdown (content (message chunk)))
                (items tail)
         ++ stream_ending tail.
Proof.
  intros w request context chunks tail Hsetup Hchat. split.
  - destruct (chat_failure_unreported w request context Hsetup) as [_ Hm].
    rewrite Hm, Hchat, items_deliver. apply map_app.
  - rewrite agentHandler_run, Hsetup. cbn [trace_of fst].
    rewrite agentHandler_relay_run, Hchat. cbn [trace_of fst].
    rewrite items_deliver. unfold relayed. rewrite map_app, <- !app_assoc.
    now rewrite stream_ending_deliver.
Qed.

Lemma chunks_relayed_in_order_witness :
  outcome_of (agentHandler_setup (Sample.world (inr Sample.hello)))
    = Returned tt
  /\ markdowns
       (trace_of (agentHandler (Sample.world (inr Sample.hello))
                               Sample.request Sample.context))
     = ["Hel"; "lo"].
Proof.
  split; [reflexivity|].
  exact (proj1
    (chunks_relayed_in_order (Sample.world (inr Sample.hello))
       Sample.request Sample.context
       [Sample.chunk "Hel"; Sample.chunk "lo"] Finished eq_refl eq_refl)).
Defined.

(** C7: every turn returns to the host, and the result it returns has the
    empty string as [metadata.command], whatever the configuration, the
    history, the request and the answers of the server are, including
    every turn in which some step throws. *)
Theorem agentHandler_always_returns :
  forall (w : World) (request : ChatRequest) (context : ChatContext),
    outcome_of (agentHandler w request context)
    = Returned {| metadata := {| command := EmptyString |} |}.
Proof.
  intros w request context. rewrite agentHandler_run.
  now destruct (outcome_of (agentHandler_setup w)).
Qed.

(** C8 (the code at the failing input): the model is installed, the chat
    stream delivers "Hel" and then fails with an error that is not a
    connectivity error.  The turn logs nothing to telemetry and renders no
    apology: the only trace of the failure is the error's message on
    [console.error].  The same holds when the chat call itself rejects. *)
Theorem chat_stream_failure_swallowed :
  let broken := Next (Sample.chunk "Hel") (Failed Sample.model_error) in
  let t := trace_of (agentHandler (Sample.world (inr broken))
                                  Sample.request Sample.context) in
  let t' := trace_of (agentHandler (Sample.world (inl Sample.model_error))
                                   Sample.request Sample.context) in
  is_connectivity_error Sample.model_error = false
  /\ telemetry t = []
  /\ markdowns t = ["Hel"]
  /\ last t (ConsoleLog EmptyString) = ConsoleError "model runner crashed"
  /\ telemetry t' = []
  /\ markdowns t' = []
  /\ last t' (ConsoleLog EmptyString) = ConsoleError "model runner crashed".
Proof. vm_compute. repeat split. Qed.

(** C9: a turn calls the chat endpoint at most once, and exactly once
    when the setup succeeds; the messages of that call are the preamble
    (sent with role user) first, then the messages projected from the
    history, then one message of role user with the new prompt. *)
Theorem chat_call_messages :
  forall (w : World) (request : ChatRequest) (context : ChatContext),
    chat_calls (trace_of (agentHandler w request context))
    = match outcome_of (agentHandler_setup w) with
      | Returned _ =>
          [ (readModelFromConfig w,
             [{| role := "user"; content := BASE_PROMPT |}]
             ++ appendAssistantHistory context
             ++ [{| role := "user"; content := prompt request |}]) ]
      | Threw _ => []
      end.
Proof.
  intros w request context. rewrite agentHandler_run.
  destruct (agentHandler_setup_quiet w) as (Hc & _ & _).
  destruct (outcome_of (agentHandler_setup w)) as [[]|err];
    cbn [trace_of fst]; rewrite chat_calls_app, Hc.
  - rewrite agentHandler_relay_run.
    destruct (ollama_chat _ _ _) as [e|it]; cbn [trace_of fst].
    + reflexivity.
    + rewrite !chat_calls_app.
      destruct (relayed_silent (items it)) as (_ & ->).
      destruct (stream_ending_silent it) as (_ & _ & ->).
      reflexivity.
  - reflexivity.
Qed.

End HandlerClaims.

(* ================================================================== *)
(** * Concrete runs                                                    *)
(* ================================================================== *)

Section Runs.

(** The error raised when the server is down is classified as a
    connectivity failure and names the default host. *)
Example fetch_failed_run :
  markdowns (trace_of (handleError (Sample.world (inr Finished))
                                   Sample.fetch_failed))
  = [connectivity_message OLLAMA_HOST Sample.fetch_failed]
  /\ shown_code Sample.fetch_failed = "ECONNREFUSED".
Proof. split; reflexivity. Qed.

(** A pull with a notice, a half-downloaded layer and its completion: the
    chat stream shows the notice and the closing line only, and the line
    is broken once. *)
Example pull_run :
  let events :=
    deliver [ Sample.notice "pulling manifest";
              Sample.layer "sha256:6e4c38e1172f" 512 1024;
              Sample.layer "sha256:6e4c38e1172f" 1024 1024 ] Finished in
  let t := trace_of (pullModel (Sample.world_pulling events) MODEL) in
  host_stream t
  = [ StreamProgress ("pulling manifest..." ++ JS.nl);
      StreamProgress ("Download complete!" ++ JS.nl) ]
  /\ line_breaks t = 1
  /\ percent_of (Sample.layer "sha256:6e4c38e1172f" 512 1024) = JS.of_Z 50.
Proof. vm_compute. repeat split. Qed.

(** The percent is computed in binary64: 29 of 200 bytes is shown as 14%,
    since 0.145 * 100 is 14.499999999999998 in that arithmetic. *)
Example percent_binary64 :
  percent_of (Sample.layer "sha256:6e4c38e1172f" 29 200) = JS.of_Z 14
  /\ percent_of (Sample.layer "sha256:6e4c38e1172f" 1 3) = JS.of_Z 33
  /\ percent_of (Sample.layer "sha256:6e4c38e1172f" 2 3) = JS.of_Z 67.
Proof. vm_compute. repeat split. Qed.

(** A failure of the liveness probe reaches the classifier. *)
Example probe_failure_run :
  let w := {| config_model_name := None;
              config_ollama_host := Some "http://10.0.0.5:11434";
              lm_tools := [];
              ollama_new := fun _ => None;
              ollama_ps := Some Sample.fetch_failed;
              ollama_list := inl Sample.model_error;
              ollama_pull := fun _ => inl Sample.model_error;
              ollama_chat := fun _ _ => inl Sample.model_error |} in
  let t := trace_of (agentHandler w Sample.request Sample.context) in
  telemetry t = [Sample.fetch_failed]
  /\ markdowns t
     = [connectivity_message "http://10.0.0.5:11434" Sample.fetch_failed]
  /\ chat_calls t = [].
Proof. vm_compute. repeat split. Qed.

End Runs.

(* ================================================================== *)
(** * Further properties of the installer                              *)
(* ================================================================== *)

Section MoreTraceFacts.

Lemma api_calls_app (t u : Trace) :
  api_calls (t ++ u) = api_calls t ++ api_calls u.
Proof. apply flat_map_app. Qed.

Lemma stdout_writes_app (t u : Trace) :
  stdout_writes (t ++ u) = stdout_writes t ++ stdout_writes u.
Proof. apply flat_map_app. Qed.

End MoreTraceFacts.

#[local] Hint Rewrite api_calls_app stdout_writes_app : trace.

Section PullLoopMore.

(** The loop throws exactly the error the stream ends with. *)
Lemma pull_loop_failure (it : AsyncIter ProgressResponse) :
  forall done,
    match failure_of it with
    | Some err => outcome_of (for_await it pullModel_body done) = Threw err
    | None => exists done',
        outcome_of (for_await it pullModel_body done) = Returned done'
    end.
Proof.
  induction it as [part rest IH| |err]; intros done; simpl.
  - destruct (pullModel_body_returns part done) as [done' H].
    fold (for_await rest pullModel_body).
    rewrite (bind_returned _ _ _ H). simpl. apply IH.
  - now exists done.
  - reflexivity.
Qed.

Lemma ends_normally_failure {A : Type} (it : AsyncIter A) :
  ends_normally it = match failure_of it with Some _ => false | None => true end.
Proof. induction it as [a rest IH| |err]; simpl; auto. Qed.

(** What the loop writes with [process.stdout.write]: status and percent
    of every digest event, in order. *)
Lemma pull_loop_stdout (it : AsyncIter ProgressResponse) :
  forall done,
    stdout_writes (trace_of (for_await it pullModel_body done))
    = map (fun part => (status part, percent_of part)) (digest_events it).
Proof.
  unfold digest_events.
  induction it as [part rest IH| |err]; intros done; simpl; try reflexivity.
  destruct (pullModel_body_returns part done) as [done' H].
  fold (for_await rest pullModel_body).
  rewrite (bind_returned _ _ _ H). simpl trace_of.
  rewrite stdout_writes_app, IH.
  destruct (carries_digest part) eqn:Hd.
  - rewrite (pullModel_body_digest _ _ Hd). simpl.
    now destruct (is_complete part && negb done).
  - now rewrite (pullModel_body_plain _ _ Hd).
Qed.

(** The loop never breaks the line more often than events complete. *)
Lemma pull_loop_breaks_bounded (it : AsyncIter ProgressResponse) :
  forall done,
    line_breaks (trace_of (for_await it pullModel_body done))
    <= completions it.
Proof.
  unfold completions, digest_events.
  induction it as [part rest IH| |err]; intros done; simpl; try apply le_n.
  destruct (pullModel_body_returns part done) as [done' H].
  fold (for_await rest pullModel_body).
  rewrite (bind_returned _ _ _ H). simpl trace_of.
  rewrite line_breaks_app. specialize (IH done').
  destruct (carries_digest part) eqn:Hd.
  - rewrite (pullModel_body_digest _ _ Hd). simpl filter.
    destruct (is_complete part); simpl.
    + destruct (negb done); simpl; lia.
    + exact IH.
  - rewrite (pullModel_body_plain _ _ Hd). exact IH.
Qed.

(** When no two digest events in a row are complete, the flag is always
    the completeness of the last digest event, and every completion
    breaks the line. *)
Lemma pull_loop_isolated (it : AsyncIter ProgressResponse) :
  forall done,
    isolated done (map is_complete (digest_events it)) = true ->
    line_breaks (trace_of (for_await it pullModel_body done))
    = completions it.
Proof.
  unfold completions, digest_events.
  induction it as [part rest IH| |err]; intros done Hiso; simpl;
    try reflexivity.
  destruct (pullModel_body_returns part done) as [done' H].
  fold (for_await rest pullModel_body).
  rewrite (bind_returned _ _ _ H). simpl trace_of.
  rewrite line_breaks_app. simpl in Hiso.
  destruct (carries_digest part) eqn:Hd.
  - rewrite (pullModel_body_digest _ _ Hd) in H |- *.
    simpl in Hiso. apply andb_prop in Hiso as [Hhead Hrest].
    simpl in H. injection H as <-. simpl filter.
    destruct (is_complete part) eqn:Hc.
    + destruct done; [discriminate Hhead|]. simpl.
      now rewrite (IH true Hrest).
    + simpl. now rewrite (IH false Hrest).
  - rewrite (pullModel_body_plain _ _ Hd) in H |- *.
    simpl in H. injection H as <-. simpl. now apply IH.
Qed.

End PullLoopMore.

Section InstallerMore.

Lemma pullModel_trace (w : World) (model : string)
  (it : AsyncIter ProgressResponse) :
  ollama_pull w model = inr it ->
  trace_of (pullModel w model)
  = [pull_banner model; Ollama (ApiPull model)]
    ++ trace_of (for_await it pullModel_body false)
    ++ (if ends_normally it then pull_closing else []).
Proof. intros H. rewrite pullModel_run, H. reflexivity. Qed.

Lemma pullModel_outcome (w : World) (model : string) :
  outcome_of (pullModel w model)
  = match ollama_pull w model with
    | inl err => Threw err
    | inr it =>
        match failure_of it with
        | Some err => Threw err
        | None => Returned tt
        end
    end.
Proof.
  rewrite pullModel_run.
  destruct (ollama_pull w model) as [err|it]; [reflexivity|].
  cbv zeta. unfold outcome_of at 1. cbn [snd].
  pose proof (pull_loop_failure it false) as H.
  destruct (failure_of it) as [err|].
  - now rewrite H.
  - destruct H as [done' H]. now rewrite H.
Qed.

(** pullModel (lines 47-73): everything written with
    [process.stdout.write] during a pull is the status and the percent of
    the events that carry a digest, one write per event, in the order of
    the stream; a pull whose call is rejected writes nothing. *)
Theorem pullModel_reports_digest_events :
  forall (w : World) (model : string),
    stdout_writes (trace_of (pullModel w model))
    = match ollama_pull w model with
      | inl _ => []
      | inr it =>
          map (fun part => (status part, percent_of part))
              (filter (fun part => JS.truthy_ostring (digest part)) (items it))
      end.
Proof.
  intros w model.
  destruct (ollama_pull w model) as [err|it] eqn:Hpull.
  - rewrite pullModel_run, Hpull. reflexivity.
  - rewrite (pullModel_trace w model it Hpull).
    autorewrite with trace. rewrite pull_loop_stdout.
    simpl. destruct (ends_normally it); simpl; now rewrite app_nil_r.
Qed.

(** pullModel (lines 52-69): a pull never breaks the line more often than
    digest events are reported as 100%; in particular it never breaks the
    line when no digest event is complete. *)
Theorem pullModel_breaks_bounded :
  forall (w : World) (model : string),
    line_breaks (trace_of (pullModel w model))
    <= match ollama_pull w model with
       | inl _ => 0
       | inr it =>
           length (filter is_complete
                     (filter (fun part => JS.truthy_ostring (digest part))
                             (items it)))
       end.
Proof.
  intros w model.
  destruct (ollama_pull w model) as [err|it] eqn:Hpull.
  - rewrite pullModel_run, Hpull. apply le_n.
  - rewrite (pullModel_trace w model it Hpull).
    rewrite !line_breaks_app.
    pose proof (pull_loop_breaks_bounded it false) as H.
    unfold completions, digest_events, carries_digest in H.
    change (line_breaks [pull_banner model; Ollama (ApiPull model)]) with 0.
    destruct (ends_normally it);
      [change (line_breaks pull_closing) with 0
      |change (line_breaks []) with 0]; lia.
Qed.

(** pullModel (lines 52-69): when, among the events that carry a digest,
    no two in a row are reported as 100%, the line is broken exactly once
    for every event reported as 100%. *)
Theorem pullModel_breaks_when_isolated :
  forall (w : World) (model : string) (it : AsyncIter ProgressResponse),
    ollama_pull w model = inr it ->
    isolated false (map is_complete (digest_events it)) = true ->
    line_breaks (trace_of (pullModel w model)) = completions it.
Proof.
  intros w model it Hpull Hiso.
  rewrite (pullModel_trace w model it Hpull), !line_breaks_app.
  rewrite (pull_loop_isolated it false Hiso).
  change (line_breaks [pull_banner model; Ollama (ApiPull model)]) with 0.
  destruct (ends_normally it);
    [change (line_breaks pull_closing) with 0
    |change (line_breaks []) with 0]; lia.
Qed.

Lemma pullModel_breaks_when_isolated_witness :
  let events :=
    deliver [ Sample.notice "pulling manifest";
              Sample.layer "sha256:6e4c38e1172f" 512 1024;
              Sample.layer "sha256:6e4c38e1172f" 1024 1024;
              Sample.notice "verifying sha256 digest";
              Sample.layer "sha256:590d74a5569b" 2048 4096;
              Sample.layer "sha256:590d74a5569b" 4096 4096 ] Finished in
  isolated false (map is_complete (digest_events events)) = true
  /\ line_breaks (trace_of (pullModel (Sample.world_pulling events) MODEL)) = 2.
Proof.
  split; [reflexivity|].
  exact (pullModel_breaks_when_isolated
           (Sample.world_pulling
              (deliver [ Sample.notice "pulling manifest";
                         Sample.layer "sha256:6e4c38e1172f" 512 1024;
                         Sample.layer "sha256:6e4c38e1172f" 1024 1024;
                         Sample.notice "verifying sha256 digest";
                         Sample.layer "sha256:590d74a5569b" 2048 4096;
                         Sample.layer "sha256:590d74a5569b" 4096 4096 ]
                       Finished))
           MODEL _ eq_refl eq_refl).
Defined.

Lemma pull_loop_same_event_repeated_witness :
  JS.truthy_string "sha256:6e4c38e1172f" = true
  /\ line_breaks
       (trace_of
          (for_await
             (deliver (repeat (Sample.layer "sha256:6e4c38e1172f" 7 7) 5)
                      Finished)
             pullModel_body false)) = 3.
Proof.
  split; [reflexivity|].
  exact (pull_loop_same_event_repeated
           "pulling sha256:6e4c38e1172f" "sha256:6e4c38e1172f"
           false 7881299347898368 (-50) 5 eq_refl).
Defined.

End InstallerMore.

(* ================================================================== *)
(** * Further properties of the percent                                *)
(* ================================================================== *)

Section Rounding.

Local Open Scope Z_scope.










End Rounding.

Section PercentProperties.

(** pullModel (lines 54-57): an event whose [completed] and [total] are
    the same finite non-zero number is reported as exactly 100%, whatever
    that number is. *)
Theorem equal_counts_are_complete :
  forall (part : ProgressResponse) (s : bool) (m : positive) (e : Z),
    completed part = Some (S754_finite s m e) ->
    total part = Some (S754_finite s m e) ->
    percent_of part = JS.of_Z 100 /\ is_complete part = true.
Proof.
  intros [st d c t] s m e Hc Ht. simpl in Hc, Ht. subst c t.
  unfold is_complete. rewrite percent_of_complete. split; reflexivity.
Qed.

Lemma equal_counts_are_complete_witness :
  percent_of (Sample.layer "sha256:6e4c38e1172f" 7 7) = JS.of_Z 100
  /\ is_complete (Sample.layer "sha256:6e4c38e1172f" 7 7) = true.
Proof.
  exact (equal_counts_are_complete
           (Sample.layer "sha256:6e4c38e1172f" 7 7)
           false 7881299347898368 (-50) eq_refl eq_refl).
Defined.



End PercentProperties.

(* ================================================================== *)
(** * Further properties of the turn                                   *)
(* ================================================================== *)

Section SetupFacts.

(** The loop of a pull calls the client no further. *)
Lemma pull_loop_api_calls (it : AsyncIter ProgressResponse) :
  forall done, api_calls (trace_of (for_await it pullModel_body done)) = [].
Proof.
  induction it as [part rest IH| |err]; intros done; simpl; try reflexivity.
  destruct (pullModel_body_returns part done) as [done' H].
  fold (for_await rest pullModel_body).
  rewrite (bind_returned _ _ _ H). simpl trace_of.
  rewrite api_calls_app, IH.
  destruct (carries_digest part) eqn:Hd.
  - rewrite (pullModel_body_digest _ _ Hd). simpl.
    now destruct (is_complete part && negb done).
  - now rewrite (pullModel_body_plain _ _ Hd).
Qed.

Lemma pullModel_api_calls (w : World) (model : string) :
  api_calls (trace_of (pullModel w model)) = [ApiPull model].
Proof.
  destruct (ollama_pull w model) as [err|it] eqn:Hpull.
  - rewrite pullModel_run, Hpull. reflexivity.
  - rewrite (pullModel_trace w model it Hpull).
    rewrite !api_calls_app, pull_loop_api_calls.
    now destruct (ends_normally it).
Qed.

Lemma pullModel_host_stream (w : World) (model : string) :
  host_stream (trace_of (pullModel w model))
  = match ollama_pull w model with
    | inl _ => []
    | inr it =>
        map progress_line
            (filter (fun part => negb (carries_digest part)) (items it))
        ++ (if ends_normally it
            then [StreamProgress ("Download complete!" ++ JS.nl)]
            else [])
    end.
Proof.
  destruct (ollama_pull w model) as [err|it] eqn:Hpull.
  - rewrite pullModel_run, Hpull. reflexivity.
  - rewrite (pullModel_trace w model it Hpull).
    rewrite !host_stream_app, pull_loop_host_stream.
    now destruct (ends_normally it).
Qed.

(** The setup ends with the first failure among its steps. *)
Lemma agentHandler_setup_outcome (w : World) :
  outcome_of (agentHandler_setup w)
  = match setup_failure w with
    | Some err => Threw err
    | None => Returned tt
    end.
Proof.
  rewrite agentHandler_setup_run. cbv zeta. unfold setup_failure, is_installed.
  destruct (ollama_new w _); [reflexivity|].
  destruct (ollama_ps w); [reflexivity|].
  cbn [outcome_of snd]. fold (outcome_of (assertPullModel w (readModelFromConfig w))).
  rewrite assertPullModel_run.
  destruct (ollama_list w) as [err|models]; [reflexivity|].
  destruct (existsb _ models); [reflexivity|].
  cbn [outcome_of snd]. fold (outcome_of (pullModel w (readModelFromConfig w))).
  rewrite pullModel_outcome.
  destruct (ollama_pull w _) as [err|it]; [reflexivity|].
  now destruct (failure_of it).
Qed.

Lemma agentHandler_setup_api_calls (w : World) :
  api_calls (trace_of (agentHandler_setup w))
  = ApiNew (readOllamaHostFromConfig w) ::
    match ollama_new w (readOllamaHostFromConfig w) with
    | Some _ => []
    | None =>
        ApiPs ::
        match ollama_ps w with
        | Some _ => []
        | None =>
            ApiList ::
            match ollama_list w with
            | inl _ => []
            | inr models =>
                if is_installed models (readModelFromConfig w) then []
                else [ApiPull (readModelFromConfig w)]
            end
        end
    end.
Proof.
  rewrite agentHandler_setup_run. cbv zeta. unfold is_installed.
  destruct (ollama_new w _); [reflexivity|].
  destruct (ollama_ps w); [reflexivity|].
  cbn [trace_of fst]. fold (trace_of (assertPullModel w (readModelFromConfig w))).
  change (Ollama (ApiNew ?h) :: Ollama ApiPs :: ?t)
    with ([Ollama (ApiNew h); Ollama ApiPs] ++ t).
  rewrite api_calls_app, assertPullModel_run.
  destruct (ollama_list w) as [err|models]; [reflexivity|].
  destruct (existsb _ models); [reflexivity|].
  cbn [trace_of fst]. fold (trace_of (pullModel w (readModelFromConfig w))).
  change (Ollama ApiList :: install_notices ?m ++ ?t)
    with ((Ollama ApiList :: install_notices m) ++ t).
  rewrite api_calls_app, pullModel_api_calls. reflexivity.
Qed.

Lemma agentHandler_setup_host_stream (w : World) :
  host_stream (trace_of (agentHandler_setup w)) = install_stream w.
Proof.
  rewrite agentHandler_setup_run. cbv zeta. unfold install_stream, is_installed.
  destruct (ollama_new w _); [reflexivity|].
  destruct (ollama_ps w); [reflexivity|].
  cbn [trace_of fst]. fold (trace_of (assertPullModel w (readModelFromConfig w))).
  change (Ollama (ApiNew ?h) :: Ollama ApiPs :: ?t)
    with ([Ollama (ApiNew h); Ollama ApiPs] ++ t).
  rewrite host_stream_app, assertPullModel_run.
  destruct (ollama_list w) as [err|models]; [reflexivity|].
  destruct (existsb _ models); [reflexivity|].
  cbn [trace_of fst]. fold (trace_of (pullModel w (readModelFromConfig w))).
  change (Ollama ApiList :: install_notices ?m ++ ?t)
    with ([Ollama ApiList] ++ install_notices m ++ t).
  rewrite !host_stream_app, pullModel_host_stream. reflexivity.
Qed.

Lemma agentHandler_relay_observed (w : World) (request : ChatRequest)
  (context : ChatContext) :
  api_calls (trace_of (agentHandler_relay w request context))
    = [ApiChat (readModelFromConfig w) (build_messages request context)]
  /\ host_stream (trace_of (agentHandler_relay w request context))
     = match ollama_chat w (readModelFromConfig w)
               (build_messages request context) with
       | inr it => relayed (items it)
       | inl _ => []
       end
  /\ telemetry (trace_of (agentHandler_relay w request context)) = [].
Proof.
  rewrite agentHandler_relay_run.
  destruct (ollama_chat _ _ _) as [err|it]; cbn [trace_of fst].
  - repeat split; reflexivity.
  - rewrite !api_calls_app, !host_stream_app, !telemetry_app.
    assert (Hr : api_calls (relayed (items it)) = []
                 /\ host_stream (relayed (items it)) = relayed (items it)
                 /\ telemetry (relayed (items it)) = []).
    { induction (items it) as [|c l (IH1 & IH2 & IH3)]; simpl;
        [now repeat split|].
      repeat split; [exact IH1 | now f_equal | exact IH3]. }
    destruct Hr as (-> & -> & ->).
    assert (He : api_calls (stream_ending it) = []
                 /\ host_stream (stream_ending it) = []
                 /\ telemetry (stream_ending it) = []).
    { induction it as [c rest IH| |err]; simpl; [exact IH | | ];
        now repeat split. }
    destruct He as (-> & -> & ->).
    repeat split; simpl; now rewrite ?app_nil_r.
Qed.

End SetupFacts.

Section TurnProperties.

(** agentHandler (lines 93-120) with assertOllamaRunning, assertPullModel
    and pullModel: a turn calls the client in the order constructor,
    [ps], [list], [pull], [chat]; each at most once; [pull] only when no
    installed name passes the prefix test; it stops calling at the first
    step that fails, and calls [chat] exactly when no earlier step
    failed. *)
Theorem turn_api_protocol :
  forall (w : World) (request : ChatRequest) (context : ChatContext),
    api_calls (trace_of (agentHandler w request context))
    = ApiNew (readOllamaHostFromConfig w) ::
      match ollama_new w (readOllamaHostFromConfig w) with
      | Some _ => []
      | None =>
          ApiPs ::
          match ollama_ps w with
          | Some _ => []
          | None =>
              ApiList ::
              match ollama_list w with
              | inl _ => []
              | inr models =>
                  (if existsb (fun m => JS.startsWith (name m)
                                          (readModelFromConfig w)) models
                   then []
                   else [ApiPull (readModelFromConfig w)])
                  ++ match setup_failure w with
                     | Some _ => []
                     | None =>
                         [ApiChat (readModelFromConfig w)
                            ([{| role := "user"; content := BASE_PROMPT |}]
                             ++ appendAssistantHistory context
                             ++ [{| role := "user";
                                    content := prompt request |}])]
                     end
              end
          end
      end.
Proof.
  intros w request context.
  rewrite agentHandler_run, agentHandler_setup_outcome.
  destruct (agentHandler_relay_observed w request context) as (Hrelay & _).
  destruct (setup_failure w) as [err|] eqn:Hf; cbn [trace_of fst];
    rewrite api_calls_app, agentHandler_setup_api_calls, ?Hrelay;
    unfold setup_failure, is_installed in *;
    destruct (ollama_new w _); try discriminate Hf; try reflexivity;
    destruct (ollama_ps w); try discriminate Hf; try reflexivity;
    destruct (ollama_list w) as [e|models]; try discriminate Hf;
    try reflexivity;
    destruct (existsb _ models); try discriminate Hf; try reflexivity.
Qed.

(** agentHandler and handleError (lines 93-161): what the chat panel
    receives in a turn.  First the lines of an installation, if one took
    place.  Then, if a step before the chat call failed, exactly one
    markdown message, chosen by the classifier; otherwise one markdown
    fragment per chunk the chat stream delivered, and nothing at all
    when the chat call was rejected. *)
Theorem turn_host_stream :
  forall (w : World) (request : ChatRequest) (context : ChatContext),
    host_stream (trace_of (agentHandler w request context))
    = install_stream w
      ++ match setup_failure w with
         | Some err =>
             [StreamMarkdown
                (if is_connectivity_error err
                 then connectivity_message (readOllamaHostFromConfig w) err
                 else generic_message)]
         | None =>
             match ollama_chat w (readModelFromConfig w)
                     (build_messages request context) with
             | inr it =>
                 map (fun chunk => StreamMarkdown (content (message chunk)))
                     (items it)
             | inl _ => []
             end
         end.
Proof.
  intros w request context.
  rewrite agentHandler_run, agentHandler_setup_outcome.
  destruct (agentHandler_relay_observed w request context) as (_ & Hrelay & _).
  destruct (setup_failure w) as [err|]; cbn [trace_of fst];
    rewrite host_stream_app, agentHandler_setup_host_stream.
  - reflexivity.
  - now rewrite Hrelay.
Qed.

(** agentHandler and handleError (lines 118-120, 134-135): the telemetry
    logger receives exactly the first failure of the steps before the
    chat call, and nothing in a turn without such a failure.  When there
    is one, the turn ends with the log to telemetry, the echo on the
    console and the rendered message, in this order, and no markdown was
    written before. *)
Theorem turn_failure_report :
  forall (w : World) (request : ChatRequest) (context : ChatContext),
    telemetry (trace_of (agentHandler w request context))
    = match setup_failure w with
      | Some err => [err]
      | None => []
      end
    /\ forall err,
         setup_failure w = Some err ->
         trace_of (agentHandler w request context)
         = trace_of (agentHandler_setup w)
           ++ [ TelemetryLogError err;
                ConsoleLogObj (LogErr err);
                StreamMarkdown
                  (if is_connectivity_error err
                   then connectivity_message (readOllamaHostFromConfig w) err
                   else generic_message) ]
         /\ markdowns (trace_of (agentHandler_setup w)) = [].
Proof.
  intros w request context.
  destruct (agentHandler_setup_quiet w) as (_ & Hm & Ht).
  destruct (agentHandler_relay_observed w request context) as (_ & _ & Hrelay).
  rewrite agentHandler_run, agentHandler_setup_outcome. split.
  - destruct (setup_failure w) as [err|]; cbn [trace_of fst];
      rewrite telemetry_app, Ht, ?Hrelay; reflexivity.
  - intros err ->. split; [reflexivity | exact Hm].
Qed.

Lemma turn_failure_report_witness :
  let w := {| config_model_name := None;
              config_ollama_host := None;
              lm_tools := [];
              ollama_new := fun _ => None;
              ollama_ps := None;
              ollama_list := inr [];
              ollama_pull := fun _ =>
                inr (Next (Sample.notice "pulling manifest")
                          (Failed Sample.model_error));
              ollama_chat := fun _ _ => inr Finished |} in
  setup_failure w = Some Sample.model_error
  /\ markdowns (trace_of (agentHandler_setup w)) = [].
Proof.
  split; [reflexivity|].
  exact (proj2 (proj2
    (turn_failure_report
       {| config_model_name := None;
          config_ollama_host := None;
          lm_tools := [];
          ollama_new := fun _ => None;
          ollama_ps := None;
          ollama_list := inr [];
          ollama_pull := fun _ =>
            inr (Next (Sample.notice "pulling manifest")
                      (Failed Sample.model_error));
          ollama_chat := fun _ _ => inr Finished |}
       Sample.request Sample.context) Sample.model_error eq_refl)).
Defined.

(** Whatever is observed of a turn without looking at the objects
    printed with [console.log({ ... })] does not depend on the tools
    registered at the host. *)
Lemma tools_only_logged {B : Type} (f : Effect -> list B)
  (w : World) (tools : list LanguageModelToolInformation)
  (request : ChatRequest) (context : ChatContext) :
  (forall o, f (ConsoleLogObj o) = []) ->
  flat_map f (trace_of (agentHandler (with_tools w tools) request context))
  = flat_map f (trace_of (agentHandler w request context)).
Proof.
  intros Hf. rewrite !agentHandler_run.
  change (agentHandler_setup (with_tools w tools)) with (agentHandler_setup w).
  destruct (outcome_of (agentHandler_setup w)) as [[]|err]; cbn [trace_of fst];
    [|reflexivity].
  rewrite !flat_map_app. f_equal.
  rewrite !agentHandler_relay_run.
  change (ollama_chat (with_tools w tools)) with (ollama_chat w).
  change (readModelFromConfig (with_tools w tools))
    with (readModelFromConfig w).
  assert (Hopen : flat_map f (chat_opening (with_tools w tools) request context)
                  = flat_map f (chat_opening w request context)).
  { unfold chat_opening. simpl. now rewrite !Hf. }
  destruct (ollama_chat w _ _) as [e|it]; cbn [trace_of fst];
    rewrite !flat_map_app, Hopen; reflexivity.
Qed.

(** getTools and streamResponse (lines 94, 204-212, 238-252): the tools
    registered at the host are inert.  Replacing them changes neither
    what the chat panel receives, nor the calls to the client and their
    arguments, nor what is logged to telemetry, nor the result of the
    turn. *)
Theorem tools_are_inert :
  forall (w : World) (tools : list LanguageModelToolInformation)
         (request : ChatRequest) (context : ChatContext),
    host_stream (trace_of (agentHandler (with_tools w tools) request context))
      = host_stream (trace_of (agentHandler w request context))
    /\ api_calls (trace_of (agentHandler (with_tools w tools) request context))
       = api_calls (trace_of (agentHandler w request context))
    /\ telemetry (trace_of (agentHandler (with_tools w tools) request context))
       = telemetry (trace_of (agentHandler w request context))
    /\ outcome_of (agentHandler (with_tools w tools) request context)
       = outcome_of (agentHandler w request context).
Proof.
  intros w tools request context.
  split; [|split; [|split]];
    try (apply tools_only_logged; reflexivity).
  rewrite !agentHandler_run.
  change (agentHandler_setup (with_tools w tools)) with (agentHandler_setup w).
  now destruct (outcome_of (agentHandler_setup w)).
Qed.

End TurnProperties.

Section RelayProperties.

Lemma relay_yields (it : AsyncIter ChatResponse) :
  gen_yields (relay it) = items it
  /\ gen_throws (relay it) = false
  /\ api_calls (gen_effects (relay it)) = [].
Proof.
  induction it as [chunk rest (IH1 & IH2 & IH3)| |err]; simpl;
    [|now repeat split..].
  repeat split; [now f_equal | exact IH2 | exact IH3].
Qed.

Lemma gen_after_observed {A : Type} (t : Trace) (g : Gen A) :
  gen_yields (gen_after t g) = gen_yields g
  /\ gen_throws (gen_after t g) = gen_throws g
  /\ gen_effects (gen_after t g) = t ++ gen_effects g.
Proof.
  destruct g as [before a rest|before|before err]; simpl;
    repeat split; now rewrite ?app_assoc.
Qed.

(** streamResponse (lines 197-220): whoever consumes the generator, it
    never throws; it yields exactly the chunks the chat stream delivered
    before it ended or failed, in order, and nothing when the chat call
    was rejected; and it calls [ollama.chat] exactly once, with the model
    and the messages it was given. *)
Theorem streamResponse_never_throws :
  forall (w : World) (model : string) (messages : list Message)
         (tools : list ToolDescriptor),
    gen_throws (streamResponse w model messages tools) = false
    /\ gen_yields (streamResponse w model messages tools)
       = match ollama_chat w model messages with
         | inr it => items it
         | inl _ => []
         end
    /\ api_calls (gen_effects (streamResponse w model messages tools))
       = [ApiChat model messages].
Proof.
  intros w model messages tools. unfold streamResponse.
  destruct (ollama_chat w model messages) as [err|it].
  - repeat split; reflexivity.
  - destruct (gen_after_observed
                [ ConsoleLog ("Using model: " ++ model);
                  ConsoleLog (readOllamaHostFromConfig w ++ "/api/chat");
                  ConsoleLogObj (LogMessages messages);
                  ConsoleLogObj (LogTools tools);
                  Ollama (ApiChat model messages) ] (relay it))
      as (-> & -> & ->).
    destruct (relay_yields it) as (-> & -> & Hcalls).
    repeat split; try reflexivity.
    rewrite api_calls_app, Hcalls. reflexivity.
Qed.

End RelayProperties.

Section AdapterProperties.

Lemma kept_text_single (text : string) :
  kept_text [ {| value := text |} ]
  = if String.prefix HIDDEN_ERROR_MESSAGE_PLACEHOLDER text
    then EmptyString else text.
Proof.
  rewrite kept_text_cons. unfold is_kept, JS.startsWith. simpl value.
  destruct (String.prefix _ text); simpl; [reflexivity | apply append_nil_r].
Qed.

(** handleError and appendAssistantHistory (lines 143, 156, 175): when a
    response turn of the history holds the message [handleError] rendered
    for an error, the adapter drops the turn if the error was classified
    as a connectivity failure, and sends the generic apology back to the
    model as an assistant message otherwise. *)
Theorem error_text_round_trip :
  forall (w : World) (err : Error) (before after : list Turn),
    appendAssistantHistory
      {| history :=
           before
           ++ ChatResponseTurn
                (map (fun text => {| value := text |})
                     (markdowns (trace_of (handleError w err))))
           :: after |}
    = appendAssistantHistory {| history := before |}
      ++ (if is_connectivity_error err then []
          else [{| role := "assistant"; content := generic_message |}])
      ++ appendAssistantHistory {| history := after |}.
Proof.
  intros w err before after.
  rewrite appendAssistantHistory_app. f_equal.
  change (ChatResponseTurn ?r :: after) with ([ChatResponseTurn r] ++ after).
  rewrite appendAssistantHistory_app. f_equal.
  rewrite appendAssistantHistory_turns, handleError_run.
  unfold error_report. cbn [trace_of fst history].
  change (markdowns [?a; ?b; StreamMarkdown ?s]) with [s].
  simpl map. simpl flat_map. rewrite kept_text_single, app_nil_r.
  destruct (is_connectivity_error err).
  - now rewrite connectivity_message_marked.
  - reflexivity.
Qed.

Lemma messages_of_turn_well_formed (m : Turn) :
  Forall well_formed_message (messages_of_turn m)
  /\ length (messages_of_turn m) <= 1.
Proof.
  destruct m as [p|response|]; simpl.
  - split; [|apply le_n]. constructor; [now left | constructor].
  - destruct (kept_text response) as [|c text]; simpl.
    + split; [constructor | apply le_0_n].
    + split; [|apply le_n].
      constructor; [right; split; [reflexivity | discriminate] | constructor].
  - split; [constructor | apply le_0_n].
Qed.

(** appendAssistantHistory (lines 163-195): every message the adapter
    emits is a user message or an assistant message with non-empty text,
    and the adapter emits at most one message per turn of the history. *)
Theorem adapter_output_well_formed :
  forall (context : ChatContext),
    Forall well_formed_message (appendAssistantHistory context)
    /\ length (appendAssistantHistory context) <= length (history context).
Proof.
  intros [h]. rewrite appendAssistantHistory_turns. simpl history.
  induction h as [|m h [IHf IHl]]; simpl.
  - split; [constructor | apply le_n].
  - destruct (messages_of_turn_well_formed m) as [Hf Hl]. split.
    + apply Forall_app. now split.
    + rewrite length_app. lia.
Qed.

(** appendAssistantHistory (lines 166-192): the projection of a history
    is the projection of its beginning followed by the projection of its
    end, so neighbouring turns are never merged; and turns that are
    neither requests nor responses leave no mark on it. *)
Theorem adapter_composes :
  forall (h1 h2 : list Turn),
    appendAssistantHistory {| history := h1 ++ h2 |}
    = appendAssistantHistory {| history := h1 |}
      ++ appendAssistantHistory {| history := h2 |}
    /\ appendAssistantHistory {| history := filter is_known_turn h1 |}
       = appendAssistantHistory {| history := h1 |}.
Proof.
  intros h1 h2. split; [apply appendAssistantHistory_app|].
  rewrite !appendAssistantHistory_turns. simpl history.
  induction h1 as [|m h IH]; [reflexivity|].
  destruct m as [p|response|]; simpl; now rewrite IH.
Qed.

End AdapterProperties.

Section ClassifierProperties.

(** assertPullModel (lines 38-39): a model installed under a name that
    extends the requested name, for instance by a tag, counts as
    installed: nothing is announced and nothing is pulled. *)
Theorem installed_under_longer_name :
  forall (w : World) (model suffix : string) (models : list ModelResponse),
    ollama_list w = inr models ->
    In {| name := model ++ suffix |} models ->
    assertPullModel w model = ([Ollama ApiList], Returned tt).
Proof.
  intros w model suffix models Hlist Hin.
  rewrite assertPullModel_run, Hlist.
  assert (Hex : existsb (fun m => JS.startsWith (name m) model) models = true).
  { apply existsb_exists. eexists. split; [exact Hin|].
    unfold JS.startsWith. simpl name. apply prefix_append. }
  now rewrite Hex.
Qed.

Lemma installed_under_longer_name_witness :
  assertPullModel
    {| config_model_name := Some "deepseek-coder";
       config_ollama_host := None;
       lm_tools := [];
       ollama_new := fun _ => None;
       ollama_ps := None;
       ollama_list := inr [ {| name := "llama3:8b" |};
                            {| name := "deepseek-coder:6.7b" |} ];
       ollama_pull := fun _ => inr Finished;
       ollama_chat := fun _ _ => inr Finished |}
    "deepseek-coder"
  = ([Ollama ApiList], Returned tt).
Proof.
  exact (installed_under_longer_name
           {| config_model_name := Some "deepseek-coder";
              config_ollama_host := None;
              lm_tools := [];
              ollama_new := fun _ => None;
              ollama_ps := None;
              ollama_list := inr [ {| name := "llama3:8b" |};
                                   {| name := "deepseek-coder:6.7b" |} ];
              ollama_pull := fun _ => inr Finished;
              ollama_chat := fun _ _ => inr Finished |}
           "deepseek-coder" ":6.7b" _ eq_refl (or_intror (or_introl eq_refl))).
Defined.

(** handleError (lines 137, 149): in the connectivity branch the code
    printed in the message is the error's own code when that is a
    non-empty string, and ECONNREFUSED otherwise; the fallback text
    UNKNOWN is never what the template falls back to. *)
Theorem shown_code_is_carried :
  forall (err : Error),
    is_connectivity_error err = true ->
    shown_code err
    = match code err with
      | Some (String c s) => String c s
      | _ => "ECONNREFUSED"
      end.
Proof.
  intros err H. apply is_connectivity_error_iff in H.
  unfold shown_code, or_else.
  destruct H as [H|H]; rewrite H; [reflexivity|].
  now destruct (code err) as [[|c s]|].
Qed.

Lemma shown_code_is_carried_witness :
  is_connectivity_error
    {| code := Some "UND_ERR_SOCKET";
       cause := Some {| cause_code := Some "ECONNREFUSED" |};
       err_message := "fetch failed" |} = true
  /\ shown_code
       {| code := Some "UND_ERR_SOCKET";
          cause := Some {| cause_code := Some "ECONNREFUSED" |};
          err_message := "fetch failed" |} = "UND_ERR_SOCKET".
Proof.
  split; [reflexivity|].
  exact (shown_code_is_carried
           {| code := Some "UND_ERR_SOCKET";
              cause := Some {| cause_code := Some "ECONNREFUSED" |};
              err_message := "fetch failed" |} eq_refl).
Defined.

End ClassifierProperties.
